(** * Bluevision: the blueprint-to-3D geometry pipeline

    A shallow embedding of [backend/feature_extraction.py],
    [backend/geometry_engine.py] and the [/convert] route of
    [backend/main.py], followed by the [/register] route with the
    [users] table of [backend/database.py].

    Conventions.
    - Python [int] is [Z]; Python [float] is idealised as an exact rational
      [Q] (no rounding, no NaN).  The module [Binary64] at the end of the
      definitions evaluates the calibration arithmetic on IEEE doubles for
      the default inputs.
    - A Python function is a computation in the monad [M]: it threads the
      lines written by [print] and either returns a value or raises.
      Log lines are the source's format strings; the [{...}] fields are
      left uninterpolated.
    - OpenCV, Shapely, trimesh, pathlib and the file system are not part of
      the repository.  Their entry points are fields of the records [Cv2],
      [Shapely], [TrimeshLib], [Pathlib] and [Host]; what the pipeline
      itself computes on their results (array shapes, vertex arrays,
      emptiness) is written out.  The module [Stub] gives one concrete
      instance of each record, for the examples. *)

From Stdlib Require Import ZArith QArith Qfield List Finite String Ascii Bool Lia.
From Stdlib Require Import DecimalString Floats.
Import ListNotations.

Open Scope string_scope.
Open Scope list_scope.
Open Scope Z_scope.

(* ================================================================== *)
(** ** Exceptions, the log and the monad of Python computations       *)
(* ================================================================== *)

(** A raised exception: its class name and [str(e)]. *)
Record exn : Type := mkExn { exn_class : string; exn_msg : string }.

Inductive Result (A : Type) : Type :=
| Ok (a : A)
| Raise (e : exn).
Arguments Ok {A} a.
Arguments Raise {A} e.

(** Standard output, oldest line first. *)
Definition Log := list string.

Definition M (A : Type) : Type := Log -> Result A * Log.

Definition ret {A} (a : A) : M A := fun out => (Ok a, out).

Definition bind {A B} (m : M A) (k : A -> M B) : M B :=
  fun out =>
    match m out with
    | (Ok a, out') => k a out'
    | (Raise e, out') => (Raise e, out')
    end.

(** [print(s)] *)
Definition print (s : string) : M unit := fun out => (Ok tt, out ++ [s]).

(** The outcome of a library call, placed in a computation. *)
Definition call {A} (r : Result A) : M A := fun out => (r, out).

(** [try: body  except Exception as e: handler e] *)
Definition try_except {A} (body : M A) (handler : exn -> M A) : M A :=
  fun out =>
    match body out with
    | (Ok a, out') => (Ok a, out')
    | (Raise e, out') => handler e out'
    end.

Declare Scope py_scope.
Delimit Scope py_scope with py.
Notation "x <- m ;; k" := (bind m (fun x => k))
  (at level 61, m at next level, right associativity) : py_scope.
Notation "m ;; k" := (bind m (fun _ => k))
  (at level 61, right associativity) : py_scope.
Open Scope py_scope.

(** [for x in xs: acc = body acc x], the loop variable being the value the
    body rebinds or mutates. *)
Fixpoint for_each {A B} (xs : list A) (acc : B) (body : B -> A -> M B) : M B :=
  match xs with
  | [] => ret acc
  | x :: xs' => acc' <- body acc x ;; for_each xs' acc' body
  end.

Definition value {A} (r : Result A * Log) : Result A := fst r.
Definition output {A} (r : Result A * Log) : Log := snd r.

(** [r] is an exception of class [cls]. *)
Definition fails_with {A} (cls : string) (r : Result A) : Prop :=
  exists msg, r = Raise (mkExn cls msg).

(** Strict order on rationals as a boolean, for [<] and [>] on floats. *)
Definition Qlt_bool (x y : Q) : bool := negb (Qle_bool y x).

(* ================================================================== *)
(** ** The libraries the pipeline calls                               *)
(* ================================================================== *)

Definition Point : Type := (Q * Q)%type.

(** Shapely geometries that reach the pipeline: a polygon given by its
    exterior ring (the pipeline never builds holes) and a collection of
    polygons. *)
Inductive Geometry : Type :=
| Poly (exterior : list Point)
| MultiPoly (geoms : list (list Point)).

(** [Polygon(shell)]: Shapely accepts the empty shell (the empty polygon)
    and raises [ValueError] on a shell of one or two points. *)
Definition Polygon (shell : list Point) : Result Geometry :=
  match shell with
  | [_] | [_; _] =>
      Raise (mkExn "ValueError" "A linearring requires at least 4 coordinates.")
  | _ => Ok (Poly shell)
  end.

(** [g.is_empty]: the geometry has no coordinates. *)
Definition is_empty (g : Geometry) : bool :=
  match g with
  | Poly exterior => match exterior with [] => true | _ => false end
  | MultiPoly geoms =>
      forallb (fun exterior => match exterior with [] => true | _ => false end) geoms
  end.

(** [list(g.geoms)] *)
Definition geoms_of (g : Geometry) : list Geometry :=
  match g with
  | Poly exterior => [Poly exterior]
  | MultiPoly geoms => map Poly geoms
  end.

Record Shapely : Type := {
  (** [g.is_valid] (GEOS validity) *)
  is_valid : Geometry -> bool;
  (** [g.buffer(distance)] *)
  buffer : Geometry -> Q -> Result Geometry
}.

(** A contour as OpenCV returns it, after [reshape(-1, 2)]: integer pixel
    coordinates [(x, y)]. *)
Definition Contour : Type := list (Z * Z).

Inductive ImreadFlag := IMREAD_COLOR | IMREAD_GRAYSCALE.
Inductive ColorCode := COLOR_BGR2GRAY.
Inductive AdaptiveMethod := ADAPTIVE_THRESH_GAUSSIAN_C.
Inductive ThresholdType := THRESH_BINARY_INV.
Inductive MorphOp := MORPH_OPEN.
Inductive RetrievalMode := RETR_CCOMP.
Inductive ApproxMethod := CHAIN_APPROX_SIMPLE.
Inductive MatchMethod := TM_CCOEFF_NORMED.

Record Cv2 (Img : Type) : Type := {
  (** [cv2.imread]: [None] when the file cannot be read or decoded *)
  imread : string -> ImreadFlag -> Result (option Img);
  (** [img.shape[:2]], rows then columns *)
  shape : Img -> Z * Z;
  cvtColor : Img -> ColorCode -> Result Img;
  adaptiveThreshold :
    Img -> Z -> AdaptiveMethod -> ThresholdType -> Z -> Z -> Result Img;
  (** the kernel is [np.ones((k, k))], given by [k] *)
  morphologyEx : Img -> MorphOp -> Z -> Z -> Result Img;
  imwrite : string -> Img -> Result bool;
  (** the contours; the hierarchy is never read *)
  findContours : Img -> RetrievalMode -> ApproxMethod -> Result (list Contour);
  contourArea : Contour -> Result Q;
  (** the score array, one list per row *)
  matchTemplate : Img -> Img -> MatchMethod -> Result (list (list Q))
}.
Arguments imread {Img}.
Arguments shape {Img}.
Arguments cvtColor {Img}.
Arguments adaptiveThreshold {Img}.
Arguments morphologyEx {Img}.
Arguments imwrite {Img}.
Arguments findContours {Img}.
Arguments contourArea {Img}.
Arguments matchTemplate {Img}.

(** pathlib, as far as the pipeline uses it. *)
Record Pathlib : Type := {
  path_parent : string -> string;
  path_stem : string -> string;
  path_join : string -> string -> string
}.

(* ================================================================== *)
(** ** feature_extraction.py                                          *)
(* ================================================================== *)

(** [tuple(p) for p in points] as Shapely reads it *)
Definition to_point (p : Z * Z) : Point := (inject_Z (fst p), inject_Z (snd p)).

(** The four corners the source lists for the rectangle from [(x0, y0)]
    to [(x1, y1)]. *)
Definition rect_points (x0 y0 x1 y1 : Z) : list (Z * Z) :=
  [ (x0, y0); (x1, y0); (x1, y1); (x0, y1) ].

Definition rectangle (x0 y0 x1 y1 : Z) : Geometry :=
  Poly (map to_point (rect_points x0 y0 x1 y1)).

(** [safe_inset = min(inset, h_img // 2 - 1, w_img // 2 - 1)] *)
Definition safe_inset_of (inset h_img w_img : Z) : Z :=
  Z.min (Z.min inset (h_img / 2 - 1)) (w_img / 2 - 1).

(** The corner list of lines 104-106. *)
Definition fallback_points (h_img w_img : Z) : list (Z * Z) :=
  let inset := 10 in
  let safe_inset := safe_inset_of inset h_img w_img in
  [ (safe_inset, safe_inset); (w_img - safe_inset, safe_inset);
    (w_img - safe_inset, h_img - safe_inset); (safe_inset, h_img - safe_inset) ].

(** [np.where(res >= threshold)]: the row indices and the column indices
    of the passing entries, in row-major order. *)
Fixpoint where_row (row : list Q) (threshold : Q) (r c : nat) : list (nat * nat) :=
  match row with
  | [] => []
  | s :: row' =>
      if Qle_bool threshold s
      then (r, c) :: where_row row' threshold r (S c)
      else where_row row' threshold r (S c)
  end.

Fixpoint where_rows (res : list (list Q)) (threshold : Q) (r : nat) : list (nat * nat) :=
  match res with
  | [] => []
  | row :: res' => where_row row threshold r 0 ++ where_rows res' threshold (S r)
  end.

Definition np_where_ge (res : list (list Q)) (threshold : Q) : list nat * list nat :=
  split (where_rows res threshold 0).

Section FeatureExtraction.
Context {Img : Type}.
Variable cv2 : Cv2 Img.
Variable shapely : Shapely.
Variable pathlib : Pathlib.

(** Lines 72-97: the body of the loop over the contours. *)
Definition process_contour (min_area : Q)
    (wall_polygons : list Geometry) (contour : Contour) : M (list Geometry) :=
  area <- call (contourArea cv2 contour) ;;
  if Qlt_bool area min_area then ret wall_polygons
  else
    let points := contour in
    if (List.length points <? 3)%nat then ret wall_polygons
    else
      try_except
        (polygon <- call (Polygon (map to_point points)) ;;
         if is_valid shapely polygon && negb (is_empty polygon) then
           ret (wall_polygons ++ [polygon])
         else if negb (is_valid shapely polygon) then
           fixed_polygon <- call (buffer shapely polygon 0) ;;
           if is_valid shapely fixed_polygon && negb (is_empty fixed_polygon) then
             match fixed_polygon with
             | MultiPoly _ => ret (wall_polygons ++ geoms_of fixed_polygon)
             | _ => ret (wall_polygons ++ [fixed_polygon])
             end
           else
             print "[WARN] Could not fix invalid polygon with area {polygon.area:.2f}" ;;
             ret wall_polygons
         else ret wall_polygons)
        (fun e =>
           print "Warning: Could not create/process polygon from contour points. Error: {e}" ;;
           ret wall_polygons).

(** Lines 102-113. *)
Definition fallback (h_img w_img : Z) : M (list Geometry) :=
  print "[WARN] No valid wall polygons found. Creating a fallback bounding box." ;;
  let points := fallback_points h_img w_img in
  fallback_poly <- call (Polygon (map to_point points)) ;;
  if is_valid shapely fallback_poly then
    print "[INFO] Returning fallback bounding box." ;;
    ret [fallback_poly]
  else
    print "[ERROR] Could not create fallback bounding box." ;;
    ret [].

(** Lines 18-115: the body of the [try]. *)
Definition extract_try_body (image_path output_dir filename_stem : string)
    (min_area : Q) : M (list Geometry) :=
  image <- call (imread cv2 image_path IMREAD_COLOR) ;;
  match image with
  | None =>
      print "[ERROR] feature_extraction: Could not read image at path: {image_path}" ;;
      ret []
  | Some image =>
      let '(h_img, w_img) := shape cv2 image in
      gray <- call (cvtColor cv2 image COLOR_BGR2GRAY) ;;
      thresh <- call (adaptiveThreshold cv2 gray 255
                        ADAPTIVE_THRESH_GAUSSIAN_C THRESH_BINARY_INV 11 2) ;;
      let open_kernel_size := 3 in
      cleaned_image <- call (morphologyEx cv2 thresh MORPH_OPEN open_kernel_size 1) ;;
      let debug_path_cleaned :=
        path_join pathlib output_dir (String.append filename_stem "_cleaned.png") in
      try_except
        (_ <- call (imwrite cv2 debug_path_cleaned cleaned_image) ;;
         print "[DEBUG] Saved cleaned image to: {debug_path_cleaned}")
        (fun write_e => print "[WARN] Could not write debug image: {write_e}") ;;
      contours <- call (findContours cv2 cleaned_image RETR_CCOMP CHAIN_APPROX_SIMPLE) ;;
      print "[INFO] feature_extraction: Found {len(contours)} initial contours." ;;
      wall_polygons <- for_each contours [] (process_contour min_area) ;;
      print "[INFO] feature_extraction: Returning {len(wall_polygons)} valid Shapely wall polygons." ;;
      match wall_polygons with
      | [] => fallback h_img w_img
      | _ => ret wall_polygons
      end
  end.

Definition extract_polygons_from_image (image_path : string) (min_area : Q)
    : M (list Geometry) :=
  print "[INFO] feature_extraction: Loading image: {image_path}" ;;
  let p := image_path in
  let output_dir := path_parent pathlib p in
  let filename_stem := path_stem pathlib p in
  try_except
    (extract_try_body image_path output_dir filename_stem min_area)
    (fun e =>
       print "[ERROR] feature_extraction: An unexpected error occurred: {e}" ;;
       ret []).

(** Lines 145-151: the body of the loop over the match locations. *)
Definition add_match (w h : Z) (feature_polygons : list Geometry)
    (pt : nat * nat) : M (list Geometry) :=
  let top_left := (Z.of_nat (fst pt), Z.of_nat (snd pt)) in
  let bottom_right := (Z.of_nat (fst pt) + w, Z.of_nat (snd pt) + h) in
  let points :=
    [ top_left; (fst bottom_right, snd top_left); bottom_right;
      (fst top_left, snd bottom_right) ] in
  poly <- call (Polygon (map to_point points)) ;;
  if is_valid shapely poly && negb (is_empty poly)
  then ret (feature_polygons ++ [poly])
  else ret feature_polygons.

Definition find_features (image_path template_path : string) (threshold : Q)
    : M (list Geometry) :=
  print "[INFO] find_features: Matching '{Path(template_path).name}'..." ;;
  try_except
    (img_gray <- call (imread cv2 image_path IMREAD_GRAYSCALE) ;;
     let template_full_path := template_path in
     template <- call (imread cv2 template_full_path IMREAD_GRAYSCALE) ;;
     match img_gray with
     | None =>
         print "[ERROR] find_features: Could not read main image: {image_path}" ;;
         ret []
     | Some img_gray =>
     match template with
     | None =>
         print "[ERROR] find_features: Could not read template image: {template_full_path}" ;;
         ret []
     | Some template =>
         let '(h, w) := shape cv2 template in
         res <- call (matchTemplate cv2 img_gray template TM_CCOEFF_NORMED) ;;
         let loc := np_where_ge res threshold in
         feature_polygons <-
           for_each (combine (snd loc) (fst loc)) [] (add_match w h) ;;
         print "[INFO] find_features: Found {len(feature_polygons)} matches for '{Path(template_path).name}'." ;;
         ret feature_polygons
     end end)
    (fun e =>
       print "[ERROR] find_features: An error occurred during template matching: {e}" ;;
       ret []).

End FeatureExtraction.

(* ================================================================== *)
(** ** geometry_engine.py                                             *)
(* ================================================================== *)

Module GeometryConstants.
Definition REAL_WORLD_WALL_THICKNESS_METERS : Q := 2 # 10.
Definition REAL_WORLD_DOOR_HEIGHT_METERS : Q := 21 # 10.
Definition REAL_WORLD_WINDOW_HEIGHT_METERS : Q := 12 # 10.
Definition REAL_WORLD_WINDOW_SILL_HEIGHT_METERS : Q := 9 # 10.
End GeometryConstants.
Import GeometryConstants.

(** Lines 20-27 of [build_3d_model], the value of [scale_factor]. *)
Definition scale_factor (wall_thickness_pixels : Z) : Q :=
  if 0 <? wall_thickness_pixels
  then inject_Z wall_thickness_pixels / REAL_WORLD_WALL_THICKNESS_METERS
  else 1.

(** Lines 20-27 with their [print]s. *)
Definition calibrate (wall_thickness_pixels : Z) : M Q :=
  if 0 <? wall_thickness_pixels then
    let scale_factor :=
      (inject_Z wall_thickness_pixels / REAL_WORLD_WALL_THICKNESS_METERS)%Q in
    print "Calculated scale: {scale_factor:.2f} pixels per meter" ;;
    ret scale_factor
  else
    print "Warning: Wall thickness is 0. Using 1:1 pixel/meter scale." ;;
    ret 1%Q.

(** A trimesh mesh: its vertex array and its face array. *)
Definition Vertex : Type := (Q * Q * Q)%type.
Definition Face : Type := (nat * nat * nat)%type.

Record Trimesh : Type := mkTrimesh { vertices : list Vertex; faces : list Face }.


(** [trimesh.Trimesh()] *)
Definition empty_mesh : Trimesh := mkTrimesh [] [].

(** [mesh.is_empty]: no vertex and no face is stored. *)
Definition mesh_is_empty (m : Trimesh) : bool :=
  match vertices m, faces m with
  | [], [] => true
  | _, _ => false
  end.

(** [mesh.apply_scale(scaling)] *)
Definition apply_scale (m : Trimesh) (scaling : Q) : Trimesh :=
  mkTrimesh
    (map (fun v : Vertex =>
            let '(x, y, z) := v in (x * scaling, y * scaling, z * scaling)%Q)
         (vertices m))
    (faces m).

(** [mesh.apply_translation([dx, dy, dz])] *)
Definition apply_translation (m : Trimesh) (d : Vertex) : Trimesh :=
  let '(dx, dy, dz) := d in
  mkTrimesh
    (map (fun v : Vertex => let '(x, y, z) := v in (x + dx, y + dy, z + dz)%Q)
         (vertices m))
    (faces m).

Definition shift_face (k : nat) (f : Face) : Face :=
  let '(a, b, c) := f in (a + k, b + k, c + k)%nat.

(** [trimesh.util.concatenate(meshes)]: the vertex arrays one after the
    other, the face indices shifted accordingly. *)
Fixpoint concatenate (meshes : list Trimesh) : Trimesh :=
  match meshes with
  | [] => empty_mesh
  | m :: rest =>
      let r := concatenate rest in
      mkTrimesh (vertices m ++ vertices r)
                (faces m ++ map (shift_face (List.length (vertices m))) (faces r))
  end.




Record TrimeshLib : Type := {
  (** [trimesh.creation.extrude_polygon(polygon, height)] *)
  extrude_polygon : Geometry -> Q -> Result Trimesh;
  (** [a.difference(b)] *)
  difference : Trimesh -> Trimesh -> Result Trimesh;
  (** [mesh.export(path)] *)
  export : Trimesh -> string -> Result unit
}.

Section GeometryEngine.
Variable shapely : Shapely.
Variable trimesh : TrimeshLib.

(** Lines 39-52: the body of the loop over the wall polygons. *)
Definition add_wall (extrusion_height_pixels : Q)
    (all_wall_meshes : list Trimesh) (polygon : Geometry) : M (list Trimesh) :=
  try_except
    (if is_valid shapely polygon && negb (is_empty polygon) then
       wall_mesh <- call (extrude_polygon trimesh polygon extrusion_height_pixels) ;;
       ret (all_wall_meshes ++ [wall_mesh])
     else
       print "Warning: Skipping invalid or empty wall polygon." ;;
       ret all_wall_meshes)
    (fun e =>
       print "Warning: Could not extrude wall polygon. Error: {e}" ;;
       ret all_wall_meshes).

(** Lines 64-76. *)
Definition add_door (door_height_pixels : Q)
    (all_opening_meshes : list Trimesh) (door_poly : Geometry) : M (list Trimesh) :=
  try_except
    (if is_valid shapely door_poly && negb (is_empty door_poly) then
       door_box <- call (extrude_polygon trimesh door_poly door_height_pixels) ;;
       ret (all_opening_meshes ++ [door_box])
     else
       print "Warning: Skipping invalid or empty door geometry." ;;
       ret all_opening_meshes)
    (fun e =>
       print "Warning: Could not extrude door polygon. Error: {e}" ;;
       ret all_opening_meshes).

(** Lines 79-93. *)
Definition add_window (window_height_pixels window_sill_pixels : Q)
    (all_opening_meshes : list Trimesh) (window_poly : Geometry) : M (list Trimesh) :=
  try_except
    (if is_valid shapely window_poly && negb (is_empty window_poly) then
       window_box <- call (extrude_polygon trimesh window_poly window_height_pixels) ;;
       let window_box := apply_translation window_box (0, 0, window_sill_pixels)%Q in
       ret (all_opening_meshes ++ [window_box])
     else
       print "Warning: Skipping invalid or empty window geometry." ;;
       ret all_opening_meshes)
    (fun e =>
       print "Warning: Could not extrude window polygon. Error: {e}" ;;
       ret all_opening_meshes).

(** Lines 97-111: [final_model] before the rescaling. *)
Definition subtract_openings (final_wall_mesh : Trimesh)
    (all_opening_meshes : list Trimesh) : M Trimesh :=
  match all_opening_meshes with
  | [] => ret final_wall_mesh
  | _ =>
      let combined_openings_mesh := concatenate all_opening_meshes in
      print "Subtracting {len(door_polygons)} doors and {len(window_polygons)} windows from walls..." ;;
      try_except
        (final_model <- call (difference trimesh final_wall_mesh combined_openings_mesh) ;;
         if mesh_is_empty final_model then
           print "Warning: Boolean difference resulted in an empty mesh. Returning original wall mesh." ;;
           ret final_wall_mesh
         else ret final_model)
        (fun e =>
           print "Warning: Boolean difference failed: {e}. Returning original wall mesh." ;;
           ret final_wall_mesh)
  end.

(** Lines 113-115. *)
Definition rescale (scale_factor : Q) (final_model : Trimesh) : Trimesh :=
  if Qlt_bool 0 scale_factor
  then apply_scale final_model (1 / scale_factor)
  else final_model.

Definition build_3d_model
    (wall_polygons door_polygons window_polygons : list Geometry)
    (wall_height : Q) (wall_thickness_pixels : Z) : M Trimesh :=
  scale_factor <- calibrate wall_thickness_pixels ;;
  let extrusion_height_pixels := (wall_height * scale_factor)%Q in
  let door_height_pixels := (REAL_WORLD_DOOR_HEIGHT_METERS * scale_factor)%Q in
  let window_height_pixels := (REAL_WORLD_WINDOW_HEIGHT_METERS * scale_factor)%Q in
  let window_sill_pixels := (REAL_WORLD_WINDOW_SILL_HEIGHT_METERS * scale_factor)%Q in
  all_wall_meshes <- for_each wall_polygons [] (add_wall extrusion_height_pixels) ;;
  match all_wall_meshes with
  | [] =>
      print "ERROR: No valid wall meshes created." ;;
      ret empty_mesh
  | _ =>
      let final_wall_mesh := concatenate all_wall_meshes in
      all_opening_meshes <- for_each door_polygons [] (add_door door_height_pixels) ;;
      all_opening_meshes <-
        for_each window_polygons all_opening_meshes
                 (add_window window_height_pixels window_sill_pixels) ;;
      final_model <- subtract_openings final_wall_mesh all_opening_meshes ;;
      let final_model := rescale scale_factor final_model in
      print "Successfully built 3D model with {len(final_model.vertices)} vertices." ;;
      ret final_model
  end.

End GeometryEngine.

(** The meshes the three loops of [build_3d_model] collect, as functions
    of the polygon lists (lemmas [wall_loop], [door_loop] and
    [window_loop] relate them to the loops). *)
Section CollectedMeshes.
Variable shapely : Shapely.
Variable trimesh : TrimeshLib.

(** The mesh one polygon contributes: none when it is skipped or its
    extrusion raises. *)
Definition extruded (polygon : Geometry) (height : Q) : list Trimesh :=
  if is_valid shapely polygon && negb (is_empty polygon) then
    match extrude_polygon trimesh polygon height with
    | Ok mesh => [mesh]
    | Raise _ => []
    end
  else [].

Definition wall_meshes (height : Q) (wall_polygons : list Geometry) : list Trimesh :=
  flat_map (fun polygon => extruded polygon height) wall_polygons.

Definition window_meshes (height sill : Q) (window_polygons : list Geometry)
    : list Trimesh :=
  flat_map (fun polygon =>
              map (fun box => apply_translation box (0, 0, sill)%Q)
                  (extruded polygon height))
           window_polygons.

Definition opening_meshes (scale_factor : Q)
    (door_polygons window_polygons : list Geometry) : list Trimesh :=
  wall_meshes (REAL_WORLD_DOOR_HEIGHT_METERS * scale_factor) door_polygons
  ++ window_meshes (REAL_WORLD_WINDOW_HEIGHT_METERS * scale_factor)
                   (REAL_WORLD_WINDOW_SILL_HEIGHT_METERS * scale_factor)
                   window_polygons.
End CollectedMeshes.

(* ================================================================== *)
(** ** main.py: the /convert route                                    *)
(* ================================================================== *)

Record JSONResponse : Type := mkResponse {
  status_code : Z;
  success : bool;
  error_message : option string;
  model_url : option string
}.

(** What the route needs from its host: the directories, the clock and
    the copy of the upload to disk. *)
Record Host : Type := {
  BACKEND_DIR : string;
  UPLOAD_DIR : string;
  MODELS_DIR : string;
  (** [int(time.time())] *)
  time : Z;
  (** [open(upload_path, "wb")] and [shutil.copyfileobj] *)
  save_upload : string -> Result unit
}.

(** [needle in haystack] on [str] *)
Fixpoint contains (needle haystack : string) : bool :=
  if String.prefix needle haystack then true
  else match haystack with
       | EmptyString => false
       | String _ rest => contains needle rest
       end.

Definition str_of_int (n : Z) : string := NilZero.string_of_int (Z.to_int n).

Section Main.
Context {Img : Type}.
Variable cv2 : Cv2 Img.
Variable shapely : Shapely.
Variable trimesh : TrimeshLib.
Variable pathlib : Pathlib.
Variable host : Host.

(** Lines 110-169: the conversion proper and its handler. *)
Definition convert_saved (upload_path : string) (wall_height : Q)
    (wall_thickness : Z) (output_model_path model_url : string) : M JSONResponse :=
  try_except
    (wall_polygons <- extract_polygons_from_image cv2 shapely pathlib upload_path 150 ;;
     match wall_polygons with
     | [] =>
         print "[ERROR] No wall features detected." ;;
         ret (mkResponse 400 false
                (Some "No wall features detected. Check image contrast/threshold.") None)
     | _ =>
         print "[INFO] Found {len(wall_polygons)} wall polygons." ;;
         let door_template_path :=
           path_join pathlib (BACKEND_DIR host) "door_template.png" in
         door_polygons <-
           find_features cv2 shapely upload_path door_template_path (7 # 10) ;;
         print "[INFO] Found {len(door_polygons)} doors." ;;
         let window_template_path :=
           path_join pathlib (BACKEND_DIR host) "window_template.png" in
         window_polygons <-
           find_features cv2 shapely upload_path window_template_path (7 # 10) ;;
         print "[INFO] Found {len(window_polygons)} windows." ;;
         final_model <-
           build_3d_model shapely trimesh wall_polygons door_polygons
                          window_polygons wall_height wall_thickness ;;
         _ <- call (export trimesh final_model output_model_path) ;;
         print "Conversion successful. Model saved to '{output_model_path}'" ;;
         ret (mkResponse 200 true None (Some model_url))
     end)
    (fun e =>
       let error_message := exn_msg e in
       print "An error occurred during conversion: {error_message}" ;;
       if contains "No valid wall meshes could be created" error_message then
         ret (mkResponse 400 false
                (Some "The uploaded blueprint could not be processed into a 3D model. Please ensure the lines are clear and walls are detectable.")
                None)
       else
         ret (mkResponse 500 false
                (Some (String.append "A critical server error occurred: " error_message))
                None)).

Definition convert_blueprint_to_3d (filename : string) (wall_height : Q)
    (wall_thickness : Z) : M JSONResponse :=
  let upload_path := path_join pathlib (UPLOAD_DIR host) filename in
  saved <-
    try_except
      (_ <- call (save_upload host upload_path) ;;
       print "Saved file: {upload_path}" ;;
       ret None)
      (fun e =>
         print "Could not save file: {e}" ;;
         ret (Some (mkResponse 500 false
                      (Some (String.append "Could not save file: " (exn_msg e)))
                      None))) ;;
  match saved with
  | Some response => ret response
  | None =>
      let cache_buster := time host in
      let model_filename :=
        String.append (path_stem pathlib filename)
          (String.append "_" (String.append (str_of_int cache_buster) ".obj")) in
      let output_model_path := path_join pathlib (MODELS_DIR host) model_filename in
      let model_url := String.append "/models/" model_filename in
      convert_saved upload_path wall_height wall_thickness output_model_path model_url
  end.

End Main.

Module Binary64.
Open Scope float_scope.
(** The double nearest to 0.2. *)
Definition REAL_WORLD_WALL_THICKNESS_METERS : float := 0x1.999999999999ap-3.
(** [wall_thickness_pixels / REAL_WORLD_WALL_THICKNESS_METERS] on doubles,
    for a thickness below 2^63. *)
Definition scale_factor (wall_thickness_pixels : Z) : float :=
  if (0 <? wall_thickness_pixels)%Z
  then of_uint63 (Uint63.of_Z wall_thickness_pixels)
       / REAL_WORLD_WALL_THICKNESS_METERS
  else 1.
Definition round_trip (wall_height : float) (wall_thickness_pixels : Z) : float :=
  let sf := scale_factor wall_thickness_pixels in
  (wall_height * sf) * (1 / sf).
End Binary64.

(* ================================================================== *)
(** ** Test doubles for the libraries                                 *)
(* ================================================================== *)

Module Stub.

(** A Shapely that knows axis-aligned rectangles only: it holds a
    polygon valid exactly when it is four corners listed as
    [rect_points] lists them, with positive width and height; the zero
    buffer gives its argument back. *)
Definition is_rectangle (g : Geometry) : bool :=
  match g with
  | Poly [ (ax, ay); (bx, by_); (cx, cy); (dx, dy) ] =>
      Qeq_bool ax dx && Qeq_bool bx cx && Qeq_bool ay by_ && Qeq_bool cy dy
      && Qlt_bool ax bx && Qlt_bool ay cy
  | _ => false
  end.

Definition shapely : Shapely :=
  {| is_valid := is_rectangle; buffer := fun g _ => Ok g |}.

(** Twice the signed area of a closed ring (the shoelace sum). *)
Fixpoint shoelace (first prev : Z * Z) (ring : list (Z * Z)) : Z :=
  match ring with
  | [] => fst prev * snd first - fst first * snd prev
  | p :: ring' =>
      fst prev * snd p - fst p * snd prev + shoelace first p ring'
  end.

Definition contour_area (c : Contour) : Q :=
  match c with
  | [] => 0
  | p :: c' => Z.abs (shoelace p p c') # 2
  end.

(** An image is its shape.  The file system holds the images [files]
    names; every filter gives its input back; [findContours] finds
    [contours] and [matchTemplate] scores [res]. *)
Definition cv2 (files : string -> option (Z * Z))
    (contours : list Contour) (res : list (list Q)) : Cv2 (Z * Z) :=
  {| imread := fun path _ => Ok (files path);
     shape := fun img => img;
     cvtColor := fun img _ => Ok img;
     adaptiveThreshold := fun img _ _ _ _ _ => Ok img;
     morphologyEx := fun img _ _ _ => Ok img;
     imwrite := fun _ _ => Ok true;
     findContours := fun _ _ _ => Ok contours;
     contourArea := fun c => Ok (contour_area c);
     matchTemplate := fun _ _ _ => Ok res |}.

(** The name without its last suffix. *)
Fixpoint stem (name : string) : string :=
  match name with
  | EmptyString => EmptyString
  | String c rest =>
      if (Ascii.eqb c "." && negb (contains "." rest))%bool then EmptyString
      else String c (stem rest)
  end.

Definition pathlib : Pathlib :=
  {| path_parent := fun _ => ".";
     path_stem := stem;
     path_join := fun d f => String.append d (String.append "/" f) |}.

(** A trimesh whose extrusion stacks the ring of a non-empty polygon at
    heights 0 and [height] and refuses a zero height, and whose boolean
    difference is [diff]. *)
Definition extrude (g : Geometry) (height : Q) : Result Trimesh :=
  if Qeq_bool height 0 then Raise (mkExn "ValueError" "Height must be nonzero!")
  else match g with
       | Poly (p0 :: exterior) =>
           Ok (mkTrimesh
                 (map (fun p : Point => (fst p, snd p, 0%Q)) (p0 :: exterior)
                  ++ map (fun p : Point => (fst p, snd p, height)) (p0 :: exterior))
                 [])
       | _ => Raise (mkExn "ValueError" "not a polygon")
       end.

Definition trimesh (diff : Trimesh -> Trimesh -> Result Trimesh) : TrimeshLib :=
  {| extrude_polygon := extrude;
     difference := diff;
     export := fun _ _ => Ok tt |}.

Definition host : Host :=
  {| BACKEND_DIR := "backend";
     UPLOAD_DIR := "backend/uploads";
     MODELS_DIR := "backend/models";
     time := 1700000000;
     save_upload := fun _ => Ok tt |}.

End Stub.

(* ================================================================== *)
(** ** Notions the properties are stated with                         *)
(* ================================================================== *)

(** The corners lie in the image rectangle [[0, w_img] x [0, h_img]]. *)
Definition within_image (h_img w_img : Z) (points : list (Z * Z)) : bool :=
  forallb (fun p : Z * Z =>
             (0 <=? fst p) && (fst p <=? w_img) && (0 <=? snd p) && (snd p <=? h_img))
          points.

(** A polygon the extractor may hand on: valid and not empty. *)
Definition accepted (shapely : Shapely) (g : Geometry) : Prop :=
  is_valid shapely g = true /\ is_empty g = false.

(** GEOS validity of a collection: the parts of a valid, non-empty
    MultiPolygon that the zero buffer returns are valid, non-empty
    polygons. *)
Definition repaired_parts_valid (shapely : Shapely) : Prop :=
  forall polygon geoms,
    buffer shapely polygon 0 = Ok (MultiPoly geoms) ->
    is_valid shapely (MultiPoly geoms) = true ->
    is_empty (MultiPoly geoms) = false ->
    Forall (fun exterior => accepted shapely (Poly exterior)) geoms.

(** GEOS validity of a rectangle: four corners with positive width and
    height are a valid polygon. *)
Definition rectangles_valid (shapely : Shapely) : Prop :=
  forall x0 y0 x1 y1 : Z,
    x0 < x1 -> y0 < y1 -> is_valid shapely (rectangle x0 y0 x1 y1) = true.

(** The rectangle of the template's size anchored at the match location
    [pt = (x, y)]. *)
Definition match_rectangle (w h : Z) (pt : nat * nat) : Geometry :=
  rectangle (Z.of_nat (fst pt)) (Z.of_nat (snd pt))
            (Z.of_nat (fst pt) + w) (Z.of_nat (snd pt) + h).

(** [res[r][c]] *)
Definition score_at (res : list (list Q)) (r c : nat) : option Q :=
  match nth_error res r with
  | Some row => nth_error row c
  | None => None
  end.



(** Boolean engines of the examples: one that always raises, and one
    that answers with a single triangle, a mesh that is not empty and not
    watertight. *)
Definition failing_difference : Trimesh -> Trimesh -> Result Trimesh :=
  fun _ _ => Raise (mkExn "ValueError" "Not all meshes are volumes!").



(** The two failure responses and the success response of the route. *)
Definition wall_mesh_failure : JSONResponse :=
  mkResponse 400 false
    (Some "The uploaded blueprint could not be processed into a 3D model. Please ensure the lines are clear and walls are detectable.")
    None.

Definition server_error (error_message : string) : JSONResponse :=
  mkResponse 500 false
    (Some (String.append "A critical server error occurred: " error_message)) None.

Definition conversion_success (model_url : string) : JSONResponse :=
  mkResponse 200 true None (Some model_url).

(** A plan whose only contour is a square of side 20. *)
Definition square_contour : Contour := [ (10, 10); (30, 10); (30, 30); (10, 30) ].

(** A 1 x 3 score array in which two neighbouring pixels pass 0.7. *)
Definition two_neighbours : list (list Q) := [ [ 9 # 10; 8 # 10; 1 # 10 ] ].

(** File systems of the examples. *)
Definition no_files : string -> option (Z * Z) := fun _ => None.

Definition only_plan : string -> option (Z * Z) :=
  fun path => if String.eqb path "plan.png" then Some (40, 60) else None.

Definition one_pixel : string -> option (Z * Z) := fun _ => Some (1, 1).

Definition uploaded_plan : string -> option (Z * Z) :=
  fun path => if String.eqb path "backend/uploads/plan.png" then Some (40, 60) else None.

Definition plan_and_templates : string -> option (Z * Z) :=
  fun path => if String.eqb path "plan.png" then Some (40, 60) else Some (3, 2).

(** The value of [m] does not depend on what was printed before. *)
Definition oblivious {A} (m : M A) : Prop :=
  forall out1 out2, value (m out1) = value (m out2).

(** The mesh lines 97-111 of [build_3d_model] leave in [final_model]
    (lemma [subtract_openings_value]). *)
Definition subtracted (trimesh : TrimeshLib) (final_wall_mesh : Trimesh)
    (all_opening_meshes : list Trimesh) : Trimesh :=
  match all_opening_meshes with
  | [] => final_wall_mesh
  | _ =>
      match difference trimesh final_wall_mesh (concatenate all_opening_meshes) with
      | Ok final_model =>
          if mesh_is_empty final_model then final_wall_mesh else final_model
      | Raise _ => final_wall_mesh
      end
  end.

(** The mesh [build_3d_model] returns (lemma [build_3d_model_value]). *)
Definition built_model (shapely : Shapely) (trimesh : TrimeshLib)
    (wall_polygons door_polygons window_polygons : list Geometry)
    (wall_height : Q) (wall_thickness_pixels : Z) : Trimesh :=
  let sf := scale_factor wall_thickness_pixels in
  match wall_meshes shapely trimesh (wall_height * sf) wall_polygons with
  | [] => empty_mesh
  | walls =>
      rescale sf
        (subtracted trimesh (concatenate walls)
           (opening_meshes shapely trimesh sf door_polygons window_polygons))
  end.

(** The other two failure responses of the route. *)
Definition no_wall_features : JSONResponse :=
  mkResponse 400 false
    (Some "No wall features detected. Check image contrast/threshold.") None.

Definition save_failure (error_message : string) : JSONResponse :=
  mkResponse 500 false
    (Some (String.append "Could not save file: " error_message)) None.

(** The URL the route gives the model of the upload [filename]. *)
Definition model_url_of (pathlib : Pathlib) (host : Host) (filename : string) : string :=
  String.append "/models/"
    (String.append (path_stem pathlib filename)
       (String.append "_" (String.append (str_of_int (time host)) ".obj"))).

(** Where the route stores the upload and the model. *)
Definition upload_path_of (pathlib : Pathlib) (host : Host) (filename : string) : string :=
  path_join pathlib (UPLOAD_DIR host) filename.

Definition model_path_of (pathlib : Pathlib) (host : Host) (filename : string) : string :=
  path_join pathlib (MODELS_DIR host)
    (String.append (path_stem pathlib filename)
       (String.append "_" (String.append (str_of_int (time host)) ".obj"))).

(** What the handler of lines 153-169 answers to the exception [e]. *)
Definition handler_answer (e : exn) : JSONResponse :=
  if contains "No valid wall meshes could be created" (exn_msg e)
  then wall_mesh_failure
  else server_error (exn_msg e).

(** The polygons one contour adds to [wall_polygons] in lines 72-97
    (lemma [process_contour_run]); none when its area cannot be
    computed. *)
Definition contributed {Img : Type} (cv2 : Cv2 Img) (shapely : Shapely)
    (min_area : Q) (contour : Contour) : list Geometry :=
  match contourArea cv2 contour with
  | Raise _ => []
  | Ok area =>
      if Qlt_bool area min_area then []
      else if (List.length contour <? 3)%nat then []
      else
        match Polygon (map to_point contour) with
        | Raise _ => []
        | Ok polygon =>
            if is_valid shapely polygon && negb (is_empty polygon) then [polygon]
            else if negb (is_valid shapely polygon) then
              match buffer shapely polygon 0 with
              | Raise _ => []
              | Ok fixed_polygon =>
                  if is_valid shapely fixed_polygon && negb (is_empty fixed_polygon)
                  then geoms_of fixed_polygon
                  else []
              end
            else []
        end
  end.

(** The polygon of lines 104-107. *)
Definition fallback_rectangle (h_img w_img : Z) : Geometry :=
  Poly (map to_point (fallback_points h_img w_img)).

(** The image at [image_path] is read as [image], the three filters
    complete and the contour search finds [contours]. *)
Definition preprocessed {Img : Type} (cv2 : Cv2 Img) (image_path : string)
    (image : Img) (contours : list Contour) : Prop :=
  exists gray thresh cleaned_image,
    imread cv2 image_path IMREAD_COLOR = Ok (Some image)
    /\ cvtColor cv2 image COLOR_BGR2GRAY = Ok gray
    /\ adaptiveThreshold cv2 gray 255 ADAPTIVE_THRESH_GAUSSIAN_C THRESH_BINARY_INV 11 2
       = Ok thresh
    /\ morphologyEx cv2 thresh MORPH_OPEN 3 1 = Ok cleaned_image
    /\ findContours cv2 cleaned_image RETR_CCOMP CHAIN_APPROX_SIMPLE = Ok contours.

(** [contourArea] raises on none of the contours. *)
Definition areas_known {Img : Type} (cv2 : Cv2 Img) (contours : list Contour) : Prop :=
  forall contour, In contour contours -> exists area, contourArea cv2 contour = Ok area.

(** The two computations have the same value, whatever was printed
    before each. *)
Definition same_value {A} (m1 m2 : M A) : Prop :=
  forall out1 out2, value (m1 out1) = value (m2 out2).

(** An OpenCV whose debug write fails. *)
Definition read_only_uploads : string -> (Z * Z) -> Result bool :=
  fun _ _ => Raise (mkExn "cv2.error" "could not write image").

(** A host whose disk refuses the upload. *)
Definition full_disk : Host :=
  {| BACKEND_DIR := "backend";
     UPLOAD_DIR := "backend/uploads";
     MODELS_DIR := "backend/models";
     time := 1700000000;
     save_upload := fun _ => Raise (mkExn "OSError" "No space left on device") |}.


(** [cv2] with another [imwrite]. *)
Definition with_imwrite {Img : Type} (cv2 : Cv2 Img)
    (write : string -> Img -> Result bool) : Cv2 Img :=
  {| imread := imread cv2;
     shape := shape cv2;
     cvtColor := cvtColor cv2;
     adaptiveThreshold := adaptiveThreshold cv2;
     morphologyEx := morphologyEx cv2;
     imwrite := write;
     findContours := findContours cv2;
     contourArea := contourArea cv2;
     matchTemplate := matchTemplate cv2 |}.




(** OpenCV's size of the score array: one entry for every position of
    the [h] x [w] template inside the [rows] x [cols] image. *)
Definition match_array_shape (rows cols h w : Z) (res : list (list Q)) : Prop :=
  Z.of_nat (List.length res) = rows - h + 1
  /\ Forall (fun row => Z.of_nat (List.length row) = cols - w + 1) res.

(** A 4 x 5 plan with a 3 x 2 template, and its 2 x 4 score array. *)
Definition small_plan : string -> option (Z * Z) :=
  fun path => if String.eqb path "plan.png" then Some (4, 5) else Some (3, 2).

Definition small_scores : list (list Q) :=
  [ [ 9 # 10; 1 # 10; 1 # 10; 8 # 10 ]; [ 1 # 10; 1 # 10; 1 # 10; 1 # 10 ] ].

(* ================================================================== *)
(** ** database.py and the /register route of main.py                 *)
(* ================================================================== *)

Module Database.

(** A row of the table [users]. *)
Record User : Type := mkUser {
  id : Z;
  email : string;
  hashed_password : string
}.

(** A SQLAlchemy session on the table [users]: the rows stored, and the
    object added and not yet flushed (the route adds at most one). *)
Record Session : Type := mkSession {
  users : list User;
  pending : option (string * string)
}.

(** The database engine: the INSERT of a row answers with the primary
    key it gave the row or raises; the SELECT of a refresh may raise. *)
Record Engine : Type := {
  insert : list User -> string -> string -> Result Z;
  refresh : list User -> Z -> Result unit
}.

End Database.
Import Database.

(** [security.get_password_hash], which is not part of the sources. *)
Record Security : Type := {
  get_password_hash : string -> Result string
}.

(** The pydantic model of the request body. *)
Record UserCreate : Type := mkUserCreate {
  user_email : string;
  password : string
}.

Module Registered.
(** The content of the success response of [/register]. *)
Record Content : Type := mkContent {
  success : bool;
  message : string;
  user_id : option Z;
  email : string
}.
End Registered.

(** [HTTPException(status_code, detail)], whose [str] is the status code,
    a colon and the detail. *)
Definition HTTPException (status_code : Z) (detail : string) : exn :=
  mkExn "HTTPException"
    (String.append (str_of_int status_code) (String.append ": " detail)).

(** Computations of a route that holds a session: they thread the
    session and the log, and return or raise. *)
Definition DbM (A : Type) : Type := Session -> Log -> Result A * Session * Log.

Definition db_ret {A} (a : A) : DbM A := fun db out => (Ok a, db, out).

Definition db_bind {A B} (m : DbM A) (k : A -> DbM B) : DbM B :=
  fun db out =>
    match m db out with
    | (Ok a, db', out') => k a db' out'
    | (Raise e, db', out') => (Raise e, db', out')
    end.

Definition db_print (s : string) : DbM unit := fun db out => (Ok tt, db, out ++ [s]).

Definition db_call {A} (r : Result A) : DbM A := fun db out => (r, db, out).

Definition db_raise {A} (e : exn) : DbM A := fun db out => (Raise e, db, out).

Definition db_try {A} (body : DbM A) (handler : exn -> DbM A) : DbM A :=
  fun db out =>
    match body db out with
    | (Ok a, db', out') => (Ok a, db', out')
    | (Raise e, db', out') => handler e db' out'
    end.

Declare Scope db_scope.
Delimit Scope db_scope with db.
Notation "x <- m ;; k" := (db_bind m (fun x => k))
  (at level 61, m at next level, right associativity) : db_scope.
Notation "m ;; k" := (db_bind m (fun _ => k))
  (at level 61, right associativity) : db_scope.

Section Register.
Variable engine : Engine.
Variable security : Security.

(** [db.query(User).filter(User.email == email).first()] *)
Definition query_first_by_email (address : string) : DbM (option User) :=
  fun db out =>
    (Ok (find (fun u => String.eqb (Database.email u) address) (users db)), db, out).

(** [db.add(obj)] *)
Definition db_add (obj : string * string) : DbM unit :=
  fun db out => (Ok tt, mkSession (users db) (Some obj), out).

(** [db.commit()]: flushes the pending object; the key of the new row is
    what the route later reads as [new_db_user.id] ([None] when nothing
    was pending).  When the INSERT raises nothing is stored and the
    object stays pending. *)
Definition db_commit : DbM (option Z) :=
  fun db out =>
    match pending db with
    | None => (Ok None, db, out)
    | Some (address, hashed) =>
        match insert engine (users db) address hashed with
        | Ok key =>
            (Ok (Some key),
             mkSession (users db ++ [mkUser key address hashed]) None, out)
        | Raise e => (Raise e, db, out)
        end
    end.

(** [db.refresh(obj)] for the object flushed with key [key]. *)
Definition db_refresh (key : option Z) : DbM unit :=
  fun db out =>
    match key with
    | None => (Ok tt, db, out)
    | Some k => (refresh engine (users db) k, db, out)
    end.

(** [db.rollback()]: drops what was not committed. *)
Definition db_rollback : DbM unit :=
  fun db out => (Ok tt, mkSession (users db) None, out).

(** main.py, lines 176-222. *)
Definition register_user (user : UserCreate) : DbM Registered.Content :=
  (db_print "Attempting to register user: {user.email}" ;;
   db_user <- query_first_by_email (user_email user) ;;
   match db_user with
   | Some _ =>
       db_print "Error: User with this email already exists." ;;
       db_raise (HTTPException 400 "Email already registered")
   | None =>
       hashed_password <- db_call (get_password_hash security (password user)) ;;
       let new_db_user := (user_email user, hashed_password) in
       db_try
         (db_add new_db_user ;;
          key <- db_commit ;;
          db_refresh key ;;
          db_print "Successfully registered user with ID: {new_db_user.id}" ;;
          db_ret (Registered.mkContent true "User created successfully!"
                    key (user_email user)))
         (fun e =>
            db_rollback ;;
            db_print "Error creating user: {e}" ;;
            db_raise (HTTPException 500
                        (String.append "Error creating user: " (exn_msg e))))
   end)%db.

(** main.py, lines 47-52 around the route: [get_db] opens a session on
    the table, the route runs, and the session is closed, which drops
    whatever is still pending.  The result is the outcome of the route
    and the table afterwards. *)
Definition get_db {A} (table : list User) (route : DbM A)
    : Log -> Result A * list User * Log :=
  fun out =>
    let db := mkSession table None in
    match route db out with
    | (r, db', out') => (r, users db', out')
    end.

(** A POST to [/register]. *)
Definition register_request (table : list User) (user : UserCreate)
    : Log -> Result Registered.Content * list User * Log :=
  get_db table (register_user user).

End Register.

(** The e-mail addresses of a table. *)
Definition emails (table : list User) : list string := map Database.email table.

(** Engines and hashers of the examples: an engine that numbers the rows
    from 1, an engine whose INSERT fails, and a hasher that prefixes. *)
Definition counting_engine : Engine :=
  {| insert := fun table _ _ => Ok (Z.of_nat (List.length table) + 1);
     refresh := fun _ _ => Ok tt |}.

Definition locked_engine : Engine :=
  {| insert := fun _ _ _ => Raise (mkExn "OperationalError" "database is locked");
     refresh := fun _ _ => Ok tt |}.

Definition stale_engine : Engine :=
  {| insert := fun table _ _ => Ok (Z.of_nat (List.length table) + 1);
     refresh := fun _ _ =>
       Raise (mkExn "InvalidRequestError" "Could not refresh instance") |}.

Definition prefix_hasher : Security :=
  {| get_password_hash := fun pw => Ok (String.append "hash:" pw) |}.

Definition alice : UserCreate := mkUserCreate "alice@example.org" "secret".

Definition alice_row : User := mkUser 1 "alice@example.org" "hash:secret".

(* ================================================================== *)
(** * Properties                                                      *)
(* ================================================================== *)

Lemma Qlt_bool_iff (x y : Q) : Qlt_bool x y = true <-> (x < y)%Q.
Proof.
  unfold Qlt_bool. rewrite negb_true_iff. split; intro H.
  - apply Qnot_le_lt. intro Hle. apply Qle_bool_iff in Hle. congruence.
  - destruct (Qle_bool y x) eqn:E; [|reflexivity].
    apply Qle_bool_iff in E. exfalso. exact (Qlt_not_le _ _ H E).
Qed.

(** The test double of Shapely holds rectangles valid. *)
Lemma stub_rectangles_valid : rectangles_valid Stub.shapely.
Proof.
  intros x0 y0 x1 y1 Hx Hy. unfold rectangle, rect_points, to_point. cbn.
  rewrite !Qeq_bool_refl. cbn.
  assert (Hqx : Qlt_bool (inject_Z x0) (inject_Z x1) = true).
  { apply Qlt_bool_iff. now rewrite <- Zlt_Qlt. }
  assert (Hqy : Qlt_bool (inject_Z y0) (inject_Z y1) = true).
  { apply Qlt_bool_iff. now rewrite <- Zlt_Qlt. }
  now rewrite Hqx, Hqy.
Qed.

Lemma binary64_default_scale : Binary64.scale_factor 5 = 25%float.
Proof. vm_compute. reflexivity. Qed.

Lemma binary64_default_round_trip : Binary64.round_trip 3%float 5 = 3%float.
Proof. vm_compute. reflexivity. Qed.

(** *** The monad *)

Lemma bind_ok {A B} (m : M A) (k : A -> M B) out a out' :
  m out = (Ok a, out') -> bind m k out = k a out'.
Proof. intro H. unfold bind. now rewrite H. Qed.

(** A successful [bind] ran both of its parts. *)
Lemma bind_inv {A B} (m : M A) (k : A -> M B) out b out'' :
  bind m k out = (Ok b, out'') ->
  exists a out', m out = (Ok a, out') /\ k a out' = (Ok b, out'').
Proof.
  unfold bind. destruct (m out) as [[a|e] out'] eqn:E; intro H.
  - exists a, out'. split; [reflexivity | exact H].
  - discriminate.
Qed.

(** One step of a computation. *)
Lemma bind_call {A B} (r : Result A) (k : A -> M B) out :
  bind (call r) k out
  = match r with Ok a => k a out | Raise e => (Raise e, out) end.
Proof. unfold bind, call. now destruct r. Qed.

Lemma bind_print {B} (s : string) (k : unit -> M B) out :
  bind (print s) k out = k tt (out ++ [s]).
Proof. reflexivity. Qed.

Lemma bind_ret {A B} (a : A) (k : A -> M B) out :
  bind (ret a) k out = k a out.
Proof. reflexivity. Qed.


Ltac step_in H :=
  repeat (rewrite bind_call in H || rewrite bind_print in H || rewrite bind_ret in H).

(** A [try] whose handler returns always returns. *)
Lemma try_except_returns {A} (body : M A) (handler : exn -> M A) :
  (forall e out, exists a out', handler e out = (Ok a, out')) ->
  forall out, exists a out', try_except body handler out = (Ok a, out').
Proof.
  intros Hh out. unfold try_except.
  destruct (body out) as [[a|e] out'].
  - now exists a, out'.
  - apply Hh.
Qed.

(** A property of the accumulator that every completed iteration keeps
    holds when the loop completes. *)
Lemma for_each_invariant {A B} (P : B -> Prop) (body : B -> A -> M B) :
  (forall acc x out acc' out',
      P acc -> body acc x out = (Ok acc', out') -> P acc') ->
  forall xs acc out acc' out',
    P acc -> for_each xs acc body out = (Ok acc', out') -> P acc'.
Proof.
  intros Hb xs. induction xs as [|x xs IH]; intros acc out acc' out' HP H; simpl in H.
  - unfold ret in H. now inversion H; subst.
  - apply bind_inv in H. destruct H as (acc1 & out1 & E1 & E2).
    eapply IH; [|exact E2]. eapply Hb; eassumption.
Qed.

(** *** C2: the scale factor *)

Lemma calibrate_scale_factor (wall_thickness_pixels : Z) (out : Log) :
  exists line,
    calibrate wall_thickness_pixels out
    = (Ok (scale_factor wall_thickness_pixels), out ++ [line]).
Proof.
  unfold calibrate, scale_factor.
  destruct (0 <? wall_thickness_pixels); eexists; reflexivity.
Qed.



(** *** C10: the extraction never raises *)

(** C10.  Whatever the path, the area threshold and the behaviour of the
    libraries, [extract_polygons_from_image] returns a list: either the
    list its [try] body returned, or the empty list when anything in that
    body raised. *)
Theorem extract_polygons_never_raises {Img : Type}
    (cv2 : Cv2 Img) (shapely : Shapely) (pathlib : Pathlib)
    (image_path : string) (min_area : Q) (out : Log) :
  exists polygons out',
    extract_polygons_from_image cv2 shapely pathlib image_path min_area out
    = (Ok polygons, out')
    /\ let body :=
         extract_try_body cv2 shapely pathlib image_path
           (path_parent pathlib image_path) (path_stem pathlib image_path) min_area
           (out ++ ["[INFO] feature_extraction: Loading image: {image_path}"]) in
       (value body = Ok polygons
        \/ (polygons = [] /\ exists e, value body = Raise e)).
Proof.
  unfold extract_polygons_from_image, bind at 1, print at 1, try_except.
  destruct (extract_try_body _ _ _ _ _ _ _ _) as [[polygons|e] out1] eqn:E.
  - exists polygons, out1. split; [reflexivity|]. left. reflexivity.
  - eexists [], _. split; [reflexivity|]. right. split; [reflexivity|].
    exists e. reflexivity.
Qed.

(** The debug write of lines 50-54 never stops the extraction. *)
Lemma debug_write_is_caught {Img : Type} (cv2 : Cv2 Img) path (img : Img) out :
  exists out',
    try_except
      (_ <- call (imwrite cv2 path img) ;;
       print "[DEBUG] Saved cleaned image to: {debug_path_cleaned}")
      (fun write_e => print "[WARN] Could not write debug image: {write_e}") out
    = (Ok tt, out').
Proof.
  unfold try_except, bind, call, print.
  destruct (imwrite cv2 path img); eexists; reflexivity.
Qed.

(** *** C7: an unreadable image *)

(** C7, as the code has it.  When the image cannot be read,
    [extract_polygons_from_image] prints an error line and returns the
    empty list as its normal result; it does not fail with
    [ImageLoadError]. *)
Theorem unreadable_image_returns_empty_list {Img : Type}
    (cv2 : Cv2 Img) (shapely : Shapely) (pathlib : Pathlib)
    (image_path : string) (min_area : Q) (out : Log) :
  imread cv2 image_path IMREAD_COLOR = Ok None ->
  extract_polygons_from_image cv2 shapely pathlib image_path min_area out
  = (Ok [],
     out ++ ["[INFO] feature_extraction: Loading image: {image_path}"]
         ++ ["[ERROR] feature_extraction: Could not read image at path: {image_path}"])
  /\ ~ fails_with "ImageLoadError"
       (value (extract_polygons_from_image cv2 shapely pathlib image_path min_area out)).
Proof.
  intro Hread.
  assert (E : extract_polygons_from_image cv2 shapely pathlib image_path min_area out
              = (Ok [],
                 out ++ ["[INFO] feature_extraction: Loading image: {image_path}"]
                     ++ ["[ERROR] feature_extraction: Could not read image at path: {image_path}"])).
  { unfold extract_polygons_from_image, extract_try_body, try_except, bind, call, print, ret.
    rewrite Hread. now rewrite <- app_assoc. }
  split; [exact E|].
  rewrite E. intros [msg Hmsg]. discriminate Hmsg.
Qed.

Lemma unreadable_image_returns_empty_list_witness :
  value (extract_polygons_from_image (Stub.cv2 no_files [] []) Stub.shapely
           Stub.pathlib "missing.png" 150 [])
  = Ok [].
Proof.
  pose proof (unreadable_image_returns_empty_list
                (Stub.cv2 no_files [] []) Stub.shapely Stub.pathlib
                "missing.png" 150 [] eq_refl) as [E _].
  rewrite E. reflexivity.
Defined.

(** The contract of C7 as the specification words it, at the unreadable
    file ["missing.png"]: the image is null, and yet the stage does not
    fail with [ImageLoadError]: it returns the empty list. *)
Lemma unreadable_image_is_no_ImageLoadError :
  imread (Stub.cv2 no_files [] []) "missing.png" IMREAD_COLOR = Ok None
  /\ value (extract_polygons_from_image (Stub.cv2 no_files [] []) Stub.shapely
              Stub.pathlib "missing.png" 150 [])
     = Ok []
  /\ ~ fails_with "ImageLoadError"
       (value (extract_polygons_from_image (Stub.cv2 no_files [] []) Stub.shapely
                 Stub.pathlib "missing.png" 150 [])).
Proof.
  split; [reflexivity|]. split; [reflexivity|].
  intros [msg Hmsg]. vm_compute in Hmsg. discriminate Hmsg.
Qed.

(** *** C8: the opening detector *)



(** [find_features] always returns a list. *)
Lemma find_features_returns {Img : Type}
    (cv2 : Cv2 Img) (shapely : Shapely)
    (image_path template_path : string) (threshold : Q) (out : Log) :
  exists polygons out',
    find_features cv2 shapely image_path template_path threshold out
    = (Ok polygons, out').
Proof.
  unfold find_features. rewrite bind_print.
  apply try_except_returns. intros e o. eexists _, _. reflexivity.
Qed.




(** *** C5: the fallback rectangle *)

Lemma fallback_points_rect (h_img w_img : Z) :
  fallback_points h_img w_img
  = let s := safe_inset_of 10 h_img w_img in
    rect_points s s (w_img - s) (h_img - s).
Proof. reflexivity. Qed.

(** The clamp keeps the rectangle at least two pixels wide and high. *)
Lemma safe_inset_positive_extent (h_img w_img : Z) :
  let s := safe_inset_of 10 h_img w_img in
  s <= 10 /\ s + 2 <= w_img - s /\ s + 2 <= h_img - s.
Proof. unfold safe_inset_of. cbv zeta. Z.div_mod_to_equations. lia. Qed.

(** From 22 pixels on in both directions the inset is the full 10. *)
Lemma safe_inset_full (h_img w_img : Z) :
  22 <= h_img -> 22 <= w_img -> safe_inset_of 10 h_img w_img = 10.
Proof. unfold safe_inset_of. Z.div_mod_to_equations. lia. Qed.

(** The clamp is not floored at zero: the rectangle stays in the image
    exactly when both dimensions are at least 2. *)
Lemma fallback_within_image_iff (h_img w_img : Z) :
  within_image h_img w_img (fallback_points h_img w_img) = true
  <-> 2 <= h_img /\ 2 <= w_img.
Proof.
  rewrite fallback_points_rect. cbv zeta. unfold rect_points, within_image, safe_inset_of.
  cbn [forallb fst snd]. rewrite !andb_true_iff, !Z.leb_le.
  Z.div_mod_to_equations. lia.
Qed.

(** With a Shapely that holds rectangles valid, the fallback is the
    rectangle inset by the clamped amount. *)
Lemma fallback_returns_rectangle (shapely : Shapely) (h_img w_img : Z) out :
  rectangles_valid shapely ->
  value (fallback shapely h_img w_img out)
  = Ok [ let s := safe_inset_of 10 h_img w_img in
         rectangle s s (w_img - s) (h_img - s) ].
Proof.
  intro Hrect. unfold fallback. rewrite bind_print, bind_call.
  cbn [fallback_points map Polygon].
  pose proof (safe_inset_positive_extent h_img w_img) as (_ & Hw & Hh).
  cbv zeta in Hw, Hh.
  pose proof (Hrect (safe_inset_of 10 h_img w_img) (safe_inset_of 10 h_img w_img)
                (w_img - safe_inset_of 10 h_img w_img)
                (h_img - safe_inset_of 10 h_img w_img)
                ltac:(lia) ltac:(lia)) as Hvalid.
  unfold rectangle, rect_points in Hvalid. cbn [map] in Hvalid.
  rewrite Hvalid, bind_print. reflexivity.
Qed.

(** The part of C5 that holds for every image: when the image is read,
    the filters and the contour search complete and the contour loop
    accepts nothing, the extractor returns exactly one rectangle, inset by
    [safe_inset_of 10 h w], at least two pixels wide and high. *)
Lemma extract_falls_back {Img : Type}
    (cv2 : Cv2 Img) (shapely : Shapely) (pathlib : Pathlib)
    image_path min_area out image gray thresh cleaned contours :
  rectangles_valid shapely ->
  imread cv2 image_path IMREAD_COLOR = Ok (Some image) ->
  cvtColor cv2 image COLOR_BGR2GRAY = Ok gray ->
  adaptiveThreshold cv2 gray 255 ADAPTIVE_THRESH_GAUSSIAN_C THRESH_BINARY_INV 11 2
  = Ok thresh ->
  morphologyEx cv2 thresh MORPH_OPEN 3 1 = Ok cleaned ->
  findContours cv2 cleaned RETR_CCOMP CHAIN_APPROX_SIMPLE = Ok contours ->
  (forall o, value (for_each contours [] (process_contour cv2 shapely min_area) o)
             = Ok []) ->
  value (extract_polygons_from_image cv2 shapely pathlib image_path min_area out)
  = Ok [ let h_img := fst (shape cv2 image) in
         let w_img := snd (shape cv2 image) in
         let s := safe_inset_of 10 h_img w_img in
         rectangle s s (w_img - s) (h_img - s) ].
Proof.
  intros Hrect Hread Hgray Hthresh Hclean Hcontours Hnone.
  unfold extract_polygons_from_image. rewrite bind_print.
  unfold try_except, extract_try_body.
  rewrite bind_call, Hread.
  destruct (shape cv2 image) as [h_img w_img]. cbn [fst snd].
  rewrite bind_call, Hgray, bind_call, Hthresh, bind_call, Hclean.
  match goal with
  | |- context [bind (try_except ?b ?h) ?k ?o] =>
      destruct (debug_write_is_caught cv2
                  (path_join pathlib (path_parent pathlib image_path)
                     (String.append (path_stem pathlib image_path) "_cleaned.png"))
                  cleaned o) as [outw Hw];
      rewrite (bind_ok _ k _ _ _ Hw)
  end.
  rewrite bind_call, Hcontours, bind_print.
  match goal with
  | |- context [bind (for_each contours [] ?body) ?k ?o] =>
      pose proof (Hnone o) as Hloop;
      destruct (for_each contours [] body o) as [r out2] eqn:E;
      unfold value in Hloop; cbn [fst] in Hloop; subst r;
      rewrite (bind_ok _ k _ _ _ E)
  end.
  rewrite bind_print.
  pose proof (fallback_returns_rectangle shapely h_img w_img
                (out2 ++ ["[INFO] feature_extraction: Returning {len(wall_polygons)} valid Shapely wall polygons."])
                Hrect) as Hfb.
  destruct (fallback shapely h_img w_img _) as [[r|e] out3];
    unfold value in Hfb; cbn [fst] in Hfb; [|discriminate].
  inversion Hfb; subst. reflexivity.
Qed.

(** C5 at the image of one pixel, where [findContours] finds nothing:
    the extractor returns one rectangle, with corners (-1,-1) and (2,2),
    which is not within the image bounds. *)
Theorem fallback_rectangle_leaves_one_pixel_image :
  shape (Stub.cv2 one_pixel [] []) (1, 1) = (1, 1)
  /\ value (extract_polygons_from_image (Stub.cv2 one_pixel [] []) Stub.shapely
              Stub.pathlib "dot.png" 150 [])
     = Ok [rectangle (-1) (-1) 2 2]
  /\ fallback_points 1 1 = rect_points (-1) (-1) 2 2
  /\ within_image 1 1 (fallback_points 1 1) = false.
Proof. repeat split. Qed.

(** *** C6: validity of the extracted polygons *)

Ltac ret_inv H := unfold ret in H; inversion H; subst; clear H.

Lemma process_contour_keeps_accepted {Img : Type}
    (cv2 : Cv2 Img) (shapely : Shapely) (min_area : Q) :
  repaired_parts_valid shapely ->
  forall wall_polygons contour out wall_polygons' out',
    Forall (accepted shapely) wall_polygons ->
    process_contour cv2 shapely min_area wall_polygons contour out
    = (Ok wall_polygons', out') ->
    Forall (accepted shapely) wall_polygons'.
Proof.
  intros Hparts acc contour out acc' out' Hacc H.
  unfold process_contour in H. rewrite bind_call in H.
  destruct (contourArea cv2 contour) as [area|e]; [|discriminate].
  destruct (Qlt_bool area min_area); [ret_inv H; assumption|].
  destruct (List.length contour <? 3)%nat; [ret_inv H; assumption|].
  unfold try_except in H.
  match type of H with
  | context [match ?b ?o with _ => _ end] =>
      destruct (b o) as [[r|e] out1] eqn:E
  end.
  - inversion H; subst; clear H. rewrite bind_call in E.
    destruct (Polygon (map to_point contour)) as [polygon|e]; [|discriminate].
    destruct (is_valid shapely polygon) eqn:Hvalid;
      destruct (is_empty polygon) eqn:Hempty; cbn [andb negb] in E.
    + ret_inv E. assumption.
    + ret_inv E. apply Forall_app. split; [assumption|].
      constructor; [now split | constructor].
    + rewrite bind_call in E.
      destruct (buffer shapely polygon 0) as [fixed|e] eqn:Hbuf; [|discriminate].
      destruct (is_valid shapely fixed) eqn:Hv; destruct (is_empty fixed) eqn:He;
        cbn [andb negb] in E; step_in E; try (ret_inv E; assumption).
      destruct fixed as [ext|geoms]; ret_inv E; apply Forall_app; (split; [assumption|]).
      * constructor; [now split | constructor].
      * cbn [geoms_of]. apply Forall_map. exact (Hparts polygon geoms Hbuf Hv He).
    + rewrite bind_call in E.
      destruct (buffer shapely polygon 0) as [fixed|e] eqn:Hbuf; [|discriminate].
      destruct (is_valid shapely fixed) eqn:Hv; destruct (is_empty fixed) eqn:He;
        cbn [andb negb] in E; step_in E; try (ret_inv E; assumption).
      destruct fixed as [ext|geoms]; ret_inv E; apply Forall_app; (split; [assumption|]).
      * constructor; [now split | constructor].
      * cbn [geoms_of]. apply Forall_map. exact (Hparts polygon geoms Hbuf Hv He).
  - rewrite bind_print in H. ret_inv H. assumption.
Qed.

Lemma fallback_accepted (shapely : Shapely) (h_img w_img : Z) out polygons out' :
  fallback shapely h_img w_img out = (Ok polygons, out') ->
  Forall (accepted shapely) polygons.
Proof.
  unfold fallback. rewrite bind_print, bind_call. cbn [fallback_points map Polygon].
  destruct (is_valid shapely _) eqn:Hvalid; rewrite bind_print; intro H; ret_inv H.
  - constructor; [|constructor]. split; [exact Hvalid | reflexivity].
  - constructor.
Qed.

(** What the [try] body of the extraction returns after a readable
    image: the polygons of the contour loop, or the fallback when that
    loop accepted none. *)
Lemma extract_try_body_inv {Img : Type}
    (cv2 : Cv2 Img) (shapely : Shapely) (pathlib : Pathlib)
    image_path output_dir filename_stem min_area out polygons out' image :
  imread cv2 image_path IMREAD_COLOR = Ok (Some image) ->
  extract_try_body cv2 shapely pathlib image_path output_dir filename_stem min_area out
  = (Ok polygons, out') ->
  exists cleaned_image contours out1 wall_polygons out2,
    findContours cv2 cleaned_image RETR_CCOMP CHAIN_APPROX_SIMPLE = Ok contours
    /\ for_each contours [] (process_contour cv2 shapely min_area) out1
       = (Ok wall_polygons, out2)
    /\ match wall_polygons with
       | [] => exists out3,
                 fallback shapely (fst (shape cv2 image)) (snd (shape cv2 image)) out3
                 = (Ok polygons, out')
       | _ => polygons = wall_polygons
       end.
Proof.
  intros Hread H. unfold extract_try_body in H. rewrite bind_call, Hread in H.
  destruct (shape cv2 image) as [h_img w_img]. rewrite bind_call in H.
  destruct (cvtColor cv2 image COLOR_BGR2GRAY) as [gray|e]; [|discriminate].
  rewrite bind_call in H.
  destruct (adaptiveThreshold cv2 gray 255 _ _ 11 2) as [thresh|e]; [|discriminate].
  rewrite bind_call in H.
  destruct (morphologyEx cv2 thresh MORPH_OPEN 3 1) as [cleaned|e]; [|discriminate].
  apply bind_inv in H. destruct H as ([] & outw & _ & H).
  rewrite bind_call in H.
  destruct (findContours cv2 cleaned RETR_CCOMP CHAIN_APPROX_SIMPLE)
    as [contours|e] eqn:Hcontours; [|discriminate].
  rewrite bind_print in H. apply bind_inv in H.
  destruct H as (wall_polygons & out2 & Hloop & H).
  rewrite bind_print in H.
  eexists cleaned, contours, _, wall_polygons, out2.
  split; [exact Hcontours|]. split; [exact Hloop|].
  destruct wall_polygons as [|g rest].
  - eexists. exact H.
  - ret_inv H. reflexivity.
Qed.

(** C6.  Every polygon [extract_polygons_from_image] returns is valid and
    not empty, whether the contour loop accepted it as built, took it
    from the zero-buffer repair (each part of a repaired MultiPolygon
    included), or it is the fallback rectangle.  An invalid polygon whose
    repair fails is not in the list. *)
Theorem extracted_polygons_are_valid {Img : Type}
    (cv2 : Cv2 Img) (shapely : Shapely) (pathlib : Pathlib)
    (image_path : string) (min_area : Q) (out : Log)
    (polygons : list Geometry) (out' : Log) :
  repaired_parts_valid shapely ->
  extract_polygons_from_image cv2 shapely pathlib image_path min_area out
  = (Ok polygons, out') ->
  Forall (accepted shapely) polygons.
Proof.
  intros Hparts H. unfold extract_polygons_from_image in H.
  rewrite bind_print in H. unfold try_except in H.
  match type of H with
  | context [match ?b ?o with _ => _ end] =>
      destruct (b o) as [[r|e] out1] eqn:E
  end.
  - inversion H; subst; clear H.
    destruct (imread cv2 image_path IMREAD_COLOR) as [[image|]|e] eqn:Hread.
    + destruct (extract_try_body_inv _ _ _ _ _ _ _ _ _ _ _ Hread E)
        as (cleaned & contours & out1' & wall_polygons & out2 & _ & Hloop & Hend).
      assert (Hwalls : Forall (accepted shapely) wall_polygons).
      { eapply (for_each_invariant (Forall (accepted shapely))); [| |exact Hloop].
        - intros acc x o acc' o' Hacc Hbody.
          eapply process_contour_keeps_accepted; eassumption.
        - constructor. }
      destruct wall_polygons as [|g rest].
      * destruct Hend as [out3 Hfb]. eapply fallback_accepted. exact Hfb.
      * subst. exact Hwalls.
    + unfold extract_try_body in E. rewrite bind_call, Hread, bind_print in E.
      ret_inv E. constructor.
    + unfold extract_try_body in E. rewrite bind_call, Hread in E. discriminate.
  - rewrite bind_print in H. ret_inv H. constructor.
Qed.

Lemma stub_repaired_parts_valid : repaired_parts_valid Stub.shapely.
Proof. intros polygon geoms _ Hvalid _. discriminate Hvalid. Qed.

Lemma extracted_polygons_are_valid_witness :
  Forall (accepted Stub.shapely) [rectangle 10 10 30 30].
Proof.
  apply (extracted_polygons_are_valid
           (Stub.cv2 only_plan [square_contour] []) Stub.shapely Stub.pathlib
           "plan.png" 150 [] [rectangle 10 10 30 30]
           (output (extract_polygons_from_image
                      (Stub.cv2 only_plan [square_contour] []) Stub.shapely
                      Stub.pathlib "plan.png" 150 []))).
  - exact stub_repaired_parts_valid.
  - reflexivity.
Defined.

(** *** C9: one rectangle for every match *)

Lemma where_row_spec (row : list Q) (threshold : Q) (r c : nat) (r' c' : nat) :
  In (r', c') (where_row row threshold r c)
  <-> r' = r /\ (c <= c')%nat
      /\ exists s, nth_error row (c' - c) = Some s /\ (threshold <= s)%Q.
Proof.
  revert c. induction row as [|s row IH]; intro c; simpl.
  - split; [tauto|]. intros (_ & _ & s & Hs & _). now destruct (c' - c)%nat.
  - assert (Hrest :
      In (r', c') (where_row row threshold r (S c))
      <-> r' = r /\ (S c <= c')%nat
          /\ exists s', nth_error (s :: row) (c' - c) = Some s' /\ (threshold <= s')%Q).
    { rewrite IH. split; intros (Hr & Hc & s' & Hn & Hs).
      - split; [assumption|]. split; [assumption|]. exists s'. split; [|assumption].
        replace (c' - c)%nat with (S (c' - S c)) by lia. exact Hn.
      - split; [assumption|]. split; [assumption|]. exists s'. split; [|assumption].
        replace (c' - c)%nat with (S (c' - S c)) in Hn by lia. exact Hn. }
    destruct (Qle_bool threshold s) eqn:E.
    + simpl. rewrite Hrest. split.
      * intros [Heq | (Hr & Hc & Hs)].
        -- inversion Heq; subst. split; [reflexivity|]. split; [lia|].
           exists s. rewrite Nat.sub_diag. split; [reflexivity|].
           now apply Qle_bool_iff.
        -- split; [assumption|]. split; [lia|]. exact Hs.
      * intros (Hr & Hc & s' & Hn & Hs).
        destruct (Nat.eq_dec c c') as [->|Hne].
        -- left. now subst.
        -- right. split; [assumption|]. split; [lia|]. now exists s'.
    + rewrite Hrest. split.
      * intros (Hr & Hc & Hs). split; [assumption|]. split; [lia|]. exact Hs.
      * intros (Hr & Hc & s' & Hn & Hs).
        destruct (Nat.eq_dec c c') as [->|Hne].
        -- rewrite Nat.sub_diag in Hn. simpl in Hn. inversion Hn; subst.
           apply Qle_bool_iff in Hs. congruence.
        -- split; [assumption|]. split; [lia|]. now exists s'.
Qed.


Lemma where_rows_spec (res : list (list Q)) (threshold : Q) (r : nat) (r' c' : nat) :
  In (r', c') (where_rows res threshold r)
  <-> (r <= r')%nat
      /\ exists s, score_at res (r' - r) c' = Some s /\ (threshold <= s)%Q.
Proof.
  revert r. induction res as [|row res IH]; intro r; simpl.
  - split; [tauto|]. intros (_ & s & Hs & _). unfold score_at in Hs.
    now destruct (r' - r)%nat.
  - rewrite in_app_iff, where_row_spec, IH. unfold score_at. split.
    + intros [(Hr & _ & s & Hn & Hs) | (Hr & s & Hn & Hs)].
      * subst. split; [lia|]. exists s. rewrite Nat.sub_diag. simpl.
        rewrite Nat.sub_0_r in Hn. now split.
      * split; [lia|]. exists s. split; [|assumption].
        replace (r' - r)%nat with (S (r' - S r)) by lia. exact Hn.
    + intros (Hr & s & Hn & Hs).
      destruct (Nat.eq_dec r r') as [->|Hne].
      * left. split; [reflexivity|]. split; [lia|]. exists s.
        rewrite Nat.sub_diag in Hn. simpl in Hn. rewrite Nat.sub_0_r. now split.
      * right. split; [lia|]. exists s. split; [|assumption].
        replace (r' - r)%nat with (S (r' - S r)) in Hn by lia. exact Hn.
Qed.


(** The zip of the reversed [loc]: the passing entries as
    [(column, row)] pairs. *)
Lemma zip_reversed_where {A B} (l : list (A * B)) :
  combine (snd (split l)) (fst (split l)) = map (fun p => (snd p, fst p)) l.
Proof.
  induction l as [|[a b] l IH]; simpl; [reflexivity|].
  destruct (split l) as [l1 l2]. simpl in *. now rewrite IH.
Qed.

Lemma add_match_accepts (shapely : Shapely) (w h : Z) feature_polygons pt out :
  rectangles_valid shapely -> 0 < w -> 0 < h ->
  add_match shapely w h feature_polygons pt out
  = (Ok (feature_polygons ++ [match_rectangle w h pt]), out).
Proof.
  intros Hrect Hw Hh. unfold add_match. rewrite bind_call.
  cbn [map Polygon fst snd].
  pose proof (Hrect (Z.of_nat (fst pt)) (Z.of_nat (snd pt))
                (Z.of_nat (fst pt) + w) (Z.of_nat (snd pt) + h)
                ltac:(lia) ltac:(lia)) as Hvalid.
  unfold rectangle, rect_points in Hvalid. cbn [map] in Hvalid.
  rewrite Hvalid. reflexivity.
Qed.

Lemma match_loop_keeps_all (shapely : Shapely) (w h : Z) pts feature_polygons out :
  rectangles_valid shapely -> 0 < w -> 0 < h ->
  for_each pts feature_polygons (add_match shapely w h) out
  = (Ok (feature_polygons ++ map (match_rectangle w h) pts), out).
Proof.
  intros Hrect Hw Hh. revert feature_polygons.
  induction pts as [|pt pts IH]; intro acc; simpl.
  - now rewrite app_nil_r.
  - rewrite (bind_ok _ _ _ _ _ (add_match_accepts shapely w h acc pt out Hrect Hw Hh)).
    rewrite IH, <- app_assoc. reflexivity.
Qed.



(** The two overlapping rectangles of the neighbouring matches are both
    returned. *)
Lemma overlapping_matches_are_kept :
  value (find_features (Stub.cv2 plan_and_templates [] two_neighbours) Stub.shapely
           "plan.png" "door_template.png" (7 # 10) [])
  = Ok [ rectangle 0 0 2 3; rectangle 1 0 3 3 ].
Proof. reflexivity. Qed.

(** *** build_3d_model: what the loops collect *)

Lemma add_wall_run (shapely : Shapely) (trimesh : TrimeshLib) h acc polygon out :
  exists out',
    add_wall shapely trimesh h acc polygon out
    = (Ok (acc ++ extruded shapely trimesh polygon h), out').
Proof.
  unfold add_wall, extruded, try_except.
  destruct (is_valid shapely polygon && negb (is_empty polygon)).
  - rewrite bind_call. destruct (extrude_polygon trimesh polygon h).
    + eexists. reflexivity.
    + rewrite bind_print, app_nil_r. eexists. reflexivity.
  - rewrite bind_print, app_nil_r. eexists. reflexivity.
Qed.

Lemma add_door_run (shapely : Shapely) (trimesh : TrimeshLib) h acc polygon out :
  exists out',
    add_door shapely trimesh h acc polygon out
    = (Ok (acc ++ extruded shapely trimesh polygon h), out').
Proof.
  unfold add_door, extruded, try_except.
  destruct (is_valid shapely polygon && negb (is_empty polygon)).
  - rewrite bind_call. destruct (extrude_polygon trimesh polygon h).
    + eexists. reflexivity.
    + rewrite bind_print, app_nil_r. eexists. reflexivity.
  - rewrite bind_print, app_nil_r. eexists. reflexivity.
Qed.

Lemma add_window_run (shapely : Shapely) (trimesh : TrimeshLib) h sill acc polygon out :
  exists out',
    add_window shapely trimesh h sill acc polygon out
    = (Ok (acc ++ map (fun box => apply_translation box (0, 0, sill)%Q)
                      (extruded shapely trimesh polygon h)), out').
Proof.
  unfold add_window, extruded, try_except.
  destruct (is_valid shapely polygon && negb (is_empty polygon)).
  - rewrite bind_call. destruct (extrude_polygon trimesh polygon h).
    + eexists. reflexivity.
    + rewrite bind_print, app_nil_r. eexists. reflexivity.
  - rewrite bind_print, app_nil_r. eexists. reflexivity.
Qed.

(** A loop whose body appends [f x] to the accumulator collects
    [flat_map f]. *)
Lemma for_each_collects {A B} (body : list B -> A -> M (list B)) (f : A -> list B) :
  (forall acc x out, exists out', body acc x out = (Ok (acc ++ f x), out')) ->
  forall xs acc out,
    exists out', for_each xs acc body out = (Ok (acc ++ flat_map f xs), out').
Proof.
  intros Hbody xs. induction xs as [|x xs IH]; intros acc out; simpl.
  - exists out. now rewrite app_nil_r.
  - destruct (Hbody acc x out) as [out1 E]. rewrite (bind_ok _ _ _ _ _ E).
    destruct (IH (acc ++ f x) out1) as [out2 E2]. exists out2.
    rewrite E2, <- app_assoc. reflexivity.
Qed.

Lemma wall_loop (shapely : Shapely) (trimesh : TrimeshLib) h polygons acc out :
  exists out',
    for_each polygons acc (add_wall shapely trimesh h) out
    = (Ok (acc ++ wall_meshes shapely trimesh h polygons), out').
Proof.
  apply (for_each_collects _ (fun polygon => extruded shapely trimesh polygon h)).
  intros. apply add_wall_run.
Qed.

Lemma door_loop (shapely : Shapely) (trimesh : TrimeshLib) h polygons acc out :
  exists out',
    for_each polygons acc (add_door shapely trimesh h) out
    = (Ok (acc ++ wall_meshes shapely trimesh h polygons), out').
Proof.
  apply (for_each_collects _ (fun polygon => extruded shapely trimesh polygon h)).
  intros. apply add_door_run.
Qed.

Lemma window_loop (shapely : Shapely) (trimesh : TrimeshLib) h sill polygons acc out :
  exists out',
    for_each polygons acc (add_window shapely trimesh h sill) out
    = (Ok (acc ++ window_meshes shapely trimesh h sill polygons), out').
Proof.
  apply (for_each_collects _
           (fun polygon => map (fun box => apply_translation box (0, 0, sill)%Q)
                               (extruded shapely trimesh polygon h))).
  intros. apply add_window_run.
Qed.

(** [build_3d_model] up to the subtraction: with no wall mesh it prints
    its error and returns the empty mesh; otherwise it goes on to
    subtract the openings from the concatenated walls and rescales. *)
Lemma build_3d_model_run (shapely : Shapely) (trimesh : TrimeshLib)
    wall_polygons door_polygons window_polygons wall_height wall_thickness_pixels out :
  let sf := scale_factor wall_thickness_pixels in
  let walls := wall_meshes shapely trimesh (wall_height * sf) wall_polygons in
  let openings := opening_meshes shapely trimesh sf door_polygons window_polygons in
  exists out1,
    build_3d_model shapely trimesh wall_polygons door_polygons window_polygons
                   wall_height wall_thickness_pixels out
    = match walls with
      | [] => (Ok empty_mesh, out1 ++ ["ERROR: No valid wall meshes created."])
      | _ =>
          (final_model <- subtract_openings trimesh (concatenate walls) openings ;;
           print "Successfully built 3D model with {len(final_model.vertices)} vertices." ;;
           ret (rescale sf final_model)) out1
      end.
Proof.
  intros sf walls openings. unfold build_3d_model.
  destruct (calibrate_scale_factor wall_thickness_pixels out) as [line Hc].
  rewrite (bind_ok _ _ _ _ _ Hc). fold sf.
  destruct (wall_loop shapely trimesh (wall_height * sf) wall_polygons [] (out ++ [line]))
    as [out1 Hw].
  rewrite (bind_ok _ _ _ _ _ Hw). cbn [app]. fold walls.
  destruct walls as [|m ms] eqn:Ewalls.
  - exists out1. reflexivity.
  - destruct (door_loop shapely trimesh (REAL_WORLD_DOOR_HEIGHT_METERS * sf)
                door_polygons [] out1) as [out2 Hd].
    rewrite (bind_ok _ _ _ _ _ Hd). cbn [app].
    destruct (window_loop shapely trimesh (REAL_WORLD_WINDOW_HEIGHT_METERS * sf)
                (REAL_WORLD_WINDOW_SILL_HEIGHT_METERS * sf) window_polygons
                (wall_meshes shapely trimesh (REAL_WORLD_DOOR_HEIGHT_METERS * sf) door_polygons)
                out2) as [out3 Hwin].
    rewrite (bind_ok _ _ _ _ _ Hwin).
    exists out3. reflexivity.
Qed.

(** *** The subtraction and its fallback *)


Lemma subtract_raises (trimesh : TrimeshLib) walls openings out e :
  openings <> [] ->
  difference trimesh walls (concatenate openings) = Raise e ->
  subtract_openings trimesh walls openings out
  = (Ok walls,
     out ++ ["Subtracting {len(door_polygons)} doors and {len(window_polygons)} windows from walls..."]
         ++ ["Warning: Boolean difference failed: {e}. Returning original wall mesh."]).
Proof.
  intros Hne Hdiff. destruct openings as [|o os]; [congruence|].
  unfold subtract_openings. rewrite bind_print. unfold try_except.
  rewrite bind_call, Hdiff, bind_print. unfold ret. now rewrite <- app_assoc.
Qed.

Lemma subtract_empty (trimesh : TrimeshLib) walls openings out r :
  openings <> [] ->
  difference trimesh walls (concatenate openings) = Ok r ->
  mesh_is_empty r = true ->
  subtract_openings trimesh walls openings out
  = (Ok walls,
     out ++ ["Subtracting {len(door_polygons)} doors and {len(window_polygons)} windows from walls..."]
         ++ ["Warning: Boolean difference resulted in an empty mesh. Returning original wall mesh."]).
Proof.
  intros Hne Hdiff Hempty. destruct openings as [|o os]; [congruence|].
  unfold subtract_openings. rewrite bind_print. unfold try_except.
  rewrite bind_call, Hdiff, Hempty, bind_print. unfold ret. now rewrite <- app_assoc.
Qed.

Lemma subtract_succeeds (trimesh : TrimeshLib) walls openings out r :
  openings <> [] ->
  difference trimesh walls (concatenate openings) = Ok r ->
  mesh_is_empty r = false ->
  subtract_openings trimesh walls openings out
  = (Ok r,
     out ++ ["Subtracting {len(door_polygons)} doors and {len(window_polygons)} windows from walls..."]).
Proof.
  intros Hne Hdiff Hempty. destruct openings as [|o os]; [congruence|].
  unfold subtract_openings. rewrite bind_print. unfold try_except.
  rewrite bind_call, Hdiff, Hempty. reflexivity.
Qed.





(** *** C3: the fallback of the subtraction *)






(** *** C1: the scale round trip *)








(** *** C4: no wall mesh *)

(** With no wall mesh, [build_3d_model] prints its error line and returns
    the empty mesh; it raises nothing. *)
Lemma build_3d_model_no_wall_meshes (shapely : Shapely) (trimesh : TrimeshLib)
    wall_polygons door_polygons window_polygons wall_height wall_thickness_pixels out :
  wall_meshes shapely trimesh (wall_height * scale_factor wall_thickness_pixels)
              wall_polygons = [] ->
  exists out1,
    build_3d_model shapely trimesh wall_polygons door_polygons window_polygons
                   wall_height wall_thickness_pixels out
    = (Ok empty_mesh, out1 ++ ["ERROR: No valid wall meshes created."]).
Proof.
  intro Hnone.
  destruct (build_3d_model_run shapely trimesh wall_polygons door_polygons
              window_polygons wall_height wall_thickness_pixels out) as [out1 Hrun].
  cbv zeta in Hrun. rewrite Hnone in Hrun. now exists out1.
Qed.

(** What the route answers when the extractor found wall polygons and
    none of them gave a wall mesh: the export of the empty mesh decides.
    If it succeeds the answer is the success response; the structured
    wall-mesh failure is answered only if the export itself raises an
    exception that happens to carry that message. *)
Lemma convert_without_wall_meshes {Img : Type}
    (cv2 : Cv2 Img) (shapely : Shapely) (trimesh : TrimeshLib)
    (pathlib : Pathlib) (host : Host)
    upload_path wall_height wall_thickness output_model_path model_url
    out wall_polygons out1 :
  extract_polygons_from_image cv2 shapely pathlib upload_path 150 out
  = (Ok wall_polygons, out1) ->
  wall_polygons <> [] ->
  wall_meshes shapely trimesh (wall_height * scale_factor wall_thickness)
              wall_polygons = [] ->
  value (convert_saved cv2 shapely trimesh pathlib host upload_path wall_height
           wall_thickness output_model_path model_url out)
  = match export trimesh empty_mesh output_model_path with
    | Ok _ => Ok (conversion_success model_url)
    | Raise e =>
        Ok (if contains "No valid wall meshes could be created" (exn_msg e)
            then wall_mesh_failure
            else server_error (exn_msg e))
    end.
Proof.
  intros Hextract Hne Hnone. unfold convert_saved, try_except.
  rewrite (bind_ok _ _ _ _ _ Hextract).
  destruct wall_polygons as [|g rest] eqn:Ewalls; [congruence|]. rewrite <- Ewalls in *.
  rewrite bind_print.
  match goal with
  | |- context [bind (find_features cv2 shapely ?i ?t ?th) ?k ?o] =>
      destruct (find_features_returns cv2 shapely i t th o)
        as (doors & out2 & Hdoors);
      rewrite (bind_ok _ k _ _ _ Hdoors)
  end.
  rewrite bind_print.
  match goal with
  | |- context [bind (find_features cv2 shapely ?i ?t ?th) ?k ?o] =>
      destruct (find_features_returns cv2 shapely i t th o)
        as (windows & out3 & Hwindows);
      rewrite (bind_ok _ k _ _ _ Hwindows)
  end.
  rewrite bind_print.
  match goal with
  | |- context [bind (build_3d_model shapely trimesh ?w ?d ?n ?h ?t) ?k ?o] =>
      destruct (build_3d_model_no_wall_meshes shapely trimesh w d n h t o Hnone)
        as (out4 & Hbuild);
      rewrite (bind_ok _ k _ _ _ Hbuild)
  end.
  rewrite bind_call.
  destruct (export trimesh empty_mesh output_model_path) as [[]|e].
  - rewrite bind_print. reflexivity.
  - rewrite bind_print.
    destruct (contains "No valid wall meshes could be created" (exn_msg e)); reflexivity.
Qed.

(** C4 at an upload whose walls are found and whose wall height is 0, so
    that every extrusion is refused: [build_3d_model] prints its error
    and returns the empty mesh, and the route answers with the success
    response, not with the wall-mesh failure. *)
Theorem no_wall_mesh_is_reported_as_success :
  let cv2 := Stub.cv2 uploaded_plan [square_contour] [] in
  let trimesh := Stub.trimesh failing_difference in
  value (extract_polygons_from_image cv2 Stub.shapely Stub.pathlib
           "backend/uploads/plan.png" 150 [])
  = Ok [rectangle 10 10 30 30]
  /\ wall_meshes Stub.shapely trimesh (0 * scale_factor 5) [rectangle 10 10 30 30] = []
  /\ value (build_3d_model Stub.shapely trimesh [rectangle 10 10 30 30] [] [] 0 5 [])
     = Ok empty_mesh
  /\ In "ERROR: No valid wall meshes created."
        (output (build_3d_model Stub.shapely trimesh [rectangle 10 10 30 30] [] [] 0 5 []))
  /\ value (convert_blueprint_to_3d cv2 Stub.shapely trimesh Stub.pathlib Stub.host
              "plan.png" 0 5 [])
     = Ok (conversion_success "/models/plan_1700000000.obj")
  /\ value (convert_blueprint_to_3d cv2 Stub.shapely trimesh Stub.pathlib Stub.host
              "plan.png" 0 5 [])
     <> Ok wall_mesh_failure.
Proof.
  cbv zeta. repeat split.
  - vm_compute. tauto.
  - intro E. vm_compute in E. discriminate E.
Qed.

(* ================================================================== *)
(** * Further properties of the pipeline                              *)
(* ================================================================== *)

(** *** Printing never changes a result *)

Lemma oblivious_ret {A} (a : A) : oblivious (ret a).
Proof. intros o1 o2. reflexivity. Qed.

Lemma oblivious_print (s : string) : oblivious (print s).
Proof. intros o1 o2. reflexivity. Qed.

Lemma oblivious_call {A} (r : Result A) : oblivious (call r).
Proof. intros o1 o2. reflexivity. Qed.

Lemma oblivious_bind {A B} (m : M A) (k : A -> M B) :
  oblivious m -> (forall a, oblivious (k a)) -> oblivious (bind m k).
Proof.
  intros Hm Hk o1 o2. specialize (Hm o1 o2). unfold value, bind in *.
  destruct (m o1) as [[a1|e1] o1'], (m o2) as [[a2|e2] o2'];
    cbn [fst] in *; try discriminate.
  - inversion Hm; subst. apply Hk.
  - now inversion Hm.
Qed.

Lemma oblivious_try_except {A} (body : M A) (handler : exn -> M A) :
  oblivious body -> (forall e, oblivious (handler e)) ->
  oblivious (try_except body handler).
Proof.
  intros Hb Hh o1 o2. specialize (Hb o1 o2). unfold value, try_except in *.
  destruct (body o1) as [[a1|e1] o1'], (body o2) as [[a2|e2] o2'];
    cbn [fst] in *; try discriminate.
  - exact Hb.
  - inversion Hb; subst. apply Hh.
Qed.

Lemma oblivious_for_each {A B} (body : B -> A -> M B) :
  (forall acc x, oblivious (body acc x)) ->
  forall xs acc, oblivious (for_each xs acc body).
Proof.
  intros Hbody xs. induction xs as [|x xs IH]; intro acc; simpl.
  - apply oblivious_ret.
  - apply oblivious_bind; [apply Hbody | intro; apply IH].
Qed.

Ltac oblivious_step :=
  match goal with
  | |- oblivious (bind _ _) => apply oblivious_bind; [|intro]
  | |- oblivious (try_except _ _) => apply oblivious_try_except; [|intro]
  | |- oblivious (for_each _ _ _) => apply oblivious_for_each; intros
  | |- oblivious (ret _) => apply oblivious_ret
  | |- oblivious (print _) => apply oblivious_print
  | |- oblivious (call _) => apply oblivious_call
  | |- oblivious (match ?x with _ => _ end) => destruct x
  end.

Lemma process_contour_oblivious {Img : Type} (cv2 : Cv2 Img) (shapely : Shapely)
    min_area acc contour :
  oblivious (process_contour cv2 shapely min_area acc contour).
Proof. unfold process_contour. repeat oblivious_step. Qed.

Lemma fallback_oblivious (shapely : Shapely) h_img w_img :
  oblivious (fallback shapely h_img w_img).
Proof. unfold fallback. repeat oblivious_step. Qed.

Lemma extract_oblivious {Img : Type} (cv2 : Cv2 Img) (shapely : Shapely)
    (pathlib : Pathlib) image_path min_area :
  oblivious (extract_polygons_from_image cv2 shapely pathlib image_path min_area).
Proof.
  unfold extract_polygons_from_image, extract_try_body.
  repeat (oblivious_step
          || apply process_contour_oblivious || apply fallback_oblivious).
Qed.

Lemma add_match_oblivious (shapely : Shapely) w h acc pt :
  oblivious (add_match shapely w h acc pt).
Proof. unfold add_match. repeat oblivious_step. Qed.

Lemma find_features_oblivious {Img : Type} (cv2 : Cv2 Img) (shapely : Shapely)
    image_path template_path threshold :
  oblivious (find_features cv2 shapely image_path template_path threshold).
Proof.
  unfold find_features. repeat (oblivious_step || apply add_match_oblivious).
Qed.

(** [extract_polygons_from_image] always returns a list. *)
Lemma extract_returns {Img : Type} (cv2 : Cv2 Img) (shapely : Shapely)
    (pathlib : Pathlib) image_path min_area out :
  exists polygons out',
    extract_polygons_from_image cv2 shapely pathlib image_path min_area out
    = (Ok polygons, out').
Proof.
  unfold extract_polygons_from_image. rewrite bind_print.
  apply try_except_returns. intros e o. eexists _, _. reflexivity.
Qed.

(** *** The value of build_3d_model *)

Lemma subtract_openings_value (trimesh : TrimeshLib) walls openings out :
  exists out',
    subtract_openings trimesh walls openings out
    = (Ok (subtracted trimesh walls openings), out').
Proof.
  unfold subtracted. destruct openings as [|o os] eqn:Eo.
  - eexists. reflexivity.
  - rewrite <- Eo. assert (Hne : openings <> []) by (subst; discriminate).
    destruct (difference trimesh walls (concatenate openings)) as [r|e] eqn:Hdiff.
    + destruct (mesh_is_empty r) eqn:Hempty; eexists.
      * eapply subtract_empty; eassumption.
      * eapply subtract_succeeds; eassumption.
    + eexists. eapply subtract_raises; eassumption.
Qed.

Lemma build_3d_model_value (shapely : Shapely) (trimesh : TrimeshLib)
    wall_polygons door_polygons window_polygons wall_height wall_thickness_pixels out :
  exists out',
    build_3d_model shapely trimesh wall_polygons door_polygons window_polygons
                   wall_height wall_thickness_pixels out
    = (Ok (built_model shapely trimesh wall_polygons door_polygons window_polygons
             wall_height wall_thickness_pixels), out').
Proof.
  destruct (build_3d_model_run shapely trimesh wall_polygons door_polygons
              window_polygons wall_height wall_thickness_pixels out) as [out1 Hrun].
  cbv zeta in Hrun. rewrite Hrun. unfold built_model. cbv zeta.
  destruct (wall_meshes shapely trimesh _ wall_polygons) as [|w ws] eqn:Ew.
  - eexists. reflexivity.
  - match goal with
    | |- context [bind (subtract_openings trimesh ?a ?b) ?k ?o] =>
        destruct (subtract_openings_value trimesh a b o) as [out2 Hsub];
        rewrite (bind_ok _ k _ _ _ Hsub)
    end.
    rewrite bind_print. eexists. reflexivity.
Qed.

(** *** The /convert route *)

(** A computation that does not look at the log runs from any log as it
    runs from the empty one. *)
Lemma oblivious_run {A} (m : M A) (a : A) (out : Log) :
  oblivious m -> value (m []) = Ok a -> exists out', m out = (Ok a, out').
Proof.
  intros Hm Ha. specialize (Hm out []). rewrite Ha in Hm.
  destruct (m out) as [r out'] eqn:E. unfold value in Hm. cbn [fst] in Hm.
  subst r. now exists out'.
Qed.

(** The answer of lines 110-169, from the values of the three
    extractions. *)
Lemma convert_saved_value {Img : Type}
    (cv2 : Cv2 Img) (shapely : Shapely) (trimesh : TrimeshLib)
    (pathlib : Pathlib) (host : Host)
    upload_path wall_height wall_thickness output_model_path model_url out
    wall_polygons door_polygons window_polygons :
  value (extract_polygons_from_image cv2 shapely pathlib upload_path 150 [])
  = Ok wall_polygons ->
  value (find_features cv2 shapely upload_path
           (path_join pathlib (BACKEND_DIR host) "door_template.png") (7 # 10) [])
  = Ok door_polygons ->
  value (find_features cv2 shapely upload_path
           (path_join pathlib (BACKEND_DIR host) "window_template.png") (7 # 10) [])
  = Ok window_polygons ->
  value (convert_saved cv2 shapely trimesh pathlib host upload_path wall_height
           wall_thickness output_model_path model_url out)
  = Ok match wall_polygons with
       | [] => no_wall_features
       | _ =>
           match export trimesh
                   (built_model shapely trimesh wall_polygons door_polygons
                      window_polygons wall_height wall_thickness)
                   output_model_path with
           | Ok _ => conversion_success model_url
           | Raise e => handler_answer e
           end
       end.
Proof.
  intros Hwalls Hdoors Hwindows. unfold convert_saved, try_except.
  destruct (oblivious_run _ _ out (extract_oblivious cv2 shapely pathlib upload_path 150)
              Hwalls) as [out1 E1].
  rewrite (bind_ok _ _ _ _ _ E1).
  destruct wall_polygons as [|g rest].
  - rewrite bind_print. reflexivity.
  - rewrite bind_print.
    match goal with
    | |- context [bind (find_features cv2 shapely ?i ?t ?th) ?k ?o] =>
        destruct (oblivious_run _ _ o (find_features_oblivious cv2 shapely i t th) Hdoors)
          as [out2 E2];
        rewrite (bind_ok _ k _ _ _ E2)
    end.
    rewrite bind_print.
    match goal with
    | |- context [bind (find_features cv2 shapely ?i ?t ?th) ?k ?o] =>
        destruct (oblivious_run _ _ o (find_features_oblivious cv2 shapely i t th) Hwindows)
          as [out3 E3];
        rewrite (bind_ok _ k _ _ _ E3)
    end.
    rewrite bind_print.
    match goal with
    | |- context [bind (build_3d_model shapely trimesh ?w ?d ?n ?h ?t) ?k ?o] =>
        destruct (build_3d_model_value shapely trimesh w d n h t o) as [out4 E4];
        rewrite (bind_ok _ k _ _ _ E4)
    end.
    rewrite bind_call.
    destruct (export trimesh _ output_model_path) as [[]|e].
    + rewrite bind_print. reflexivity.
    + rewrite bind_print. unfold handler_answer.
      destruct (contains _ (exn_msg e)); reflexivity.
Qed.

(** The answer of the whole route once the upload is saved. *)
Lemma convert_value {Img : Type}
    (cv2 : Cv2 Img) (shapely : Shapely) (trimesh : TrimeshLib)
    (pathlib : Pathlib) (host : Host)
    filename wall_height wall_thickness out
    wall_polygons door_polygons window_polygons u :
  let upload_path := upload_path_of pathlib host filename in
  save_upload host upload_path = Ok u ->
  value (extract_polygons_from_image cv2 shapely pathlib upload_path 150 [])
  = Ok wall_polygons ->
  value (find_features cv2 shapely upload_path
           (path_join pathlib (BACKEND_DIR host) "door_template.png") (7 # 10) [])
  = Ok door_polygons ->
  value (find_features cv2 shapely upload_path
           (path_join pathlib (BACKEND_DIR host) "window_template.png") (7 # 10) [])
  = Ok window_polygons ->
  value (convert_blueprint_to_3d cv2 shapely trimesh pathlib host filename
           wall_height wall_thickness out)
  = Ok match wall_polygons with
       | [] => no_wall_features
       | _ =>
           match export trimesh
                   (built_model shapely trimesh wall_polygons door_polygons
                      window_polygons wall_height wall_thickness)
                   (model_path_of pathlib host filename) with
           | Ok _ => conversion_success (model_url_of pathlib host filename)
           | Raise e => handler_answer e
           end
       end.
Proof.
  intros upload_path Hsave Hwalls Hdoors Hwindows.
  unfold convert_blueprint_to_3d. fold (upload_path_of pathlib host filename).
  fold upload_path.
  match goal with
  | |- context [bind (try_except ?b ?h) ?k out] =>
      assert (Hs : try_except b h out
                   = (Ok None, out ++ ["Saved file: {upload_path}"]))
        by (unfold try_except; rewrite bind_call, Hsave, bind_print; reflexivity);
      rewrite (bind_ok _ k _ _ _ Hs)
  end.
  apply convert_saved_value; assumption.
Qed.

(** X1.  The route answers every request, with one of five responses:
    the success response carrying the model URL, "no wall features",
    the wall-mesh failure, a server error, or the save failure.  No
    exception leaves it. *)
Theorem convert_always_answers {Img : Type}
    (cv2 : Cv2 Img) (shapely : Shapely) (trimesh : TrimeshLib)
    (pathlib : Pathlib) (host : Host)
    (filename : string) (wall_height : Q) (wall_thickness : Z) (out : Log) :
  exists response,
    value (convert_blueprint_to_3d cv2 shapely trimesh pathlib host filename
             wall_height wall_thickness out) = Ok response
    /\ (response = conversion_success (model_url_of pathlib host filename)
        \/ response = no_wall_features
        \/ response = wall_mesh_failure
        \/ (exists msg, response = server_error msg)
        \/ (exists msg, response = save_failure msg)).
Proof.
  destruct (save_upload host (upload_path_of pathlib host filename)) as [u|e] eqn:Hsave.
  - destruct (extract_returns cv2 shapely pathlib
                (upload_path_of pathlib host filename) 150 [])
      as (walls & o1 & Hwalls).
    destruct (find_features_returns cv2 shapely (upload_path_of pathlib host filename)
                (path_join pathlib (BACKEND_DIR host) "door_template.png") (7 # 10) [])
      as (doors & o2 & Hdoors).
    destruct (find_features_returns cv2 shapely (upload_path_of pathlib host filename)
                (path_join pathlib (BACKEND_DIR host) "window_template.png") (7 # 10) [])
      as (windows & o3 & Hwindows).
    eexists. split.
    + eapply (convert_value cv2 shapely trimesh pathlib host filename wall_height
                wall_thickness out walls doors windows u Hsave).
      * unfold value. now rewrite Hwalls.
      * unfold value. now rewrite Hdoors.
      * unfold value. now rewrite Hwindows.
    + destruct walls as [|g rest]; [tauto|].
      destruct (export trimesh _ _) as [[]|e]; [tauto|].
      unfold handler_answer. destruct (contains _ (exn_msg e)).
      * tauto.
      * right. right. right. left. now exists (exn_msg e).
  - eexists. split.
    + unfold convert_blueprint_to_3d.
      fold (upload_path_of pathlib host filename).
      match goal with
      | |- context [bind (try_except ?b ?h) ?k out] =>
          assert (Hs : try_except b h out
                       = (Ok (Some (save_failure (exn_msg e))),
                          out ++ ["Could not save file: {e}"]))
            by (unfold try_except; rewrite bind_call, Hsave, bind_print; reflexivity);
          rewrite (bind_ok _ k _ _ _ Hs)
      end.
      reflexivity.
    + right. right. right. right. now exists (exn_msg e).
Qed.

(** X2.  When the upload cannot be written to disk the route answers 500
    with "Could not save file: " and the message of the exception, and
    does nothing else: the only line printed is that of the failed
    save. *)
Theorem convert_save_failure {Img : Type}
    (cv2 : Cv2 Img) (shapely : Shapely) (trimesh : TrimeshLib)
    (pathlib : Pathlib) (host : Host)
    (filename : string) (wall_height : Q) (wall_thickness : Z) (out : Log) (e : exn) :
  save_upload host (upload_path_of pathlib host filename) = Raise e ->
  convert_blueprint_to_3d cv2 shapely trimesh pathlib host filename
    wall_height wall_thickness out
  = (Ok (save_failure (exn_msg e)), out ++ ["Could not save file: {e}"]).
Proof.
  intro Hsave. unfold convert_blueprint_to_3d.
  fold (upload_path_of pathlib host filename).
  match goal with
  | |- context [bind (try_except ?b ?h) ?k out] =>
      assert (Hs : try_except b h out
                   = (Ok (Some (save_failure (exn_msg e))),
                      out ++ ["Could not save file: {e}"]))
        by (unfold try_except; rewrite bind_call, Hsave, bind_print; reflexivity);
      rewrite (bind_ok _ k _ _ _ Hs)
  end.
  reflexivity.
Qed.

Lemma convert_save_failure_witness :
  value (convert_blueprint_to_3d (Stub.cv2 uploaded_plan [square_contour] [])
           Stub.shapely (Stub.trimesh failing_difference) Stub.pathlib full_disk
           "plan.png" 3 5 [])
  = Ok (save_failure "No space left on device").
Proof.
  rewrite (convert_save_failure (Stub.cv2 uploaded_plan [square_contour] [])
             Stub.shapely (Stub.trimesh failing_difference) Stub.pathlib full_disk
             "plan.png" 3 5 [] (mkExn "OSError" "No space left on device") eq_refl).
  reflexivity.
Defined.

(** X3.  When the extractor returns the empty list for the saved upload
    (an unreadable image, or an exception inside the extraction), the
    route answers 400 "No wall features detected", whatever the
    templates, the mesh library and the export would do. *)
Theorem convert_no_wall_features {Img : Type}
    (cv2 : Cv2 Img) (shapely : Shapely) (trimesh : TrimeshLib)
    (pathlib : Pathlib) (host : Host)
    (filename : string) (wall_height : Q) (wall_thickness : Z) (out : Log) (u : unit) :
  save_upload host (upload_path_of pathlib host filename) = Ok u ->
  value (extract_polygons_from_image cv2 shapely pathlib
           (upload_path_of pathlib host filename) 150 []) = Ok [] ->
  value (convert_blueprint_to_3d cv2 shapely trimesh pathlib host filename
           wall_height wall_thickness out)
  = Ok no_wall_features.
Proof.
  intros Hsave Hwalls.
  destruct (find_features_returns cv2 shapely (upload_path_of pathlib host filename)
              (path_join pathlib (BACKEND_DIR host) "door_template.png") (7 # 10) [])
    as (doors & o2 & Hdoors).
  destruct (find_features_returns cv2 shapely (upload_path_of pathlib host filename)
              (path_join pathlib (BACKEND_DIR host) "window_template.png") (7 # 10) [])
    as (windows & o3 & Hwindows).
  rewrite (convert_value cv2 shapely trimesh pathlib host filename wall_height
             wall_thickness out [] doors windows u Hsave Hwalls).
  - reflexivity.
  - unfold value. now rewrite Hdoors.
  - unfold value. now rewrite Hwindows.
Qed.

Lemma convert_no_wall_features_witness :
  value (convert_blueprint_to_3d (Stub.cv2 no_files [] []) Stub.shapely
           (Stub.trimesh failing_difference) Stub.pathlib Stub.host
           "notes.txt" 3 5 [])
  = Ok no_wall_features.
Proof.
  apply (convert_no_wall_features (Stub.cv2 no_files [] []) Stub.shapely
           (Stub.trimesh failing_difference) Stub.pathlib Stub.host
           "notes.txt" 3 5 [] tt); reflexivity.
Defined.





(** *** More on build_3d_model *)











(** *** More on extract_polygons_from_image *)

Lemma process_contour_run {Img : Type} (cv2 : Cv2 Img) (shapely : Shapely)
    min_area acc contour out area :
  contourArea cv2 contour = Ok area ->
  exists out',
    process_contour cv2 shapely min_area acc contour out
    = (Ok (acc ++ contributed cv2 shapely min_area contour), out').
Proof.
  intro Harea. unfold process_contour, contributed. rewrite bind_call, Harea.
  destruct (Qlt_bool area min_area); [rewrite app_nil_r; eexists; reflexivity|].
  destruct (List.length contour <? 3)%nat; [rewrite app_nil_r; eexists; reflexivity|].
  unfold try_except. rewrite bind_call.
  destruct (Polygon (map to_point contour)) as [polygon|e].
  - destruct (is_valid shapely polygon); destruct (is_empty polygon); cbn [andb negb];
      try (rewrite ?app_nil_r; eexists; reflexivity).
    + rewrite bind_call. destruct (buffer shapely polygon 0) as [fixed|e].
      * destruct (is_valid shapely fixed && negb (is_empty fixed)).
        -- destruct fixed; eexists; reflexivity.
        -- rewrite bind_print, app_nil_r. eexists. reflexivity.
      * rewrite bind_print, app_nil_r. eexists. reflexivity.
    + rewrite bind_call. destruct (buffer shapely polygon 0) as [fixed|e].
      * destruct (is_valid shapely fixed && negb (is_empty fixed)).
        -- destruct fixed; eexists; reflexivity.
        -- rewrite bind_print, app_nil_r. eexists. reflexivity.
      * rewrite bind_print, app_nil_r. eexists. reflexivity.
  - rewrite bind_print, app_nil_r. eexists. reflexivity.
Qed.

Lemma for_each_collects_in {A B} (body : list B -> A -> M (list B)) (f : A -> list B)
    (xs : list A) :
  (forall acc x out, In x xs -> exists out', body acc x out = (Ok (acc ++ f x), out')) ->
  forall acc out,
    exists out', for_each xs acc body out = (Ok (acc ++ flat_map f xs), out').
Proof.
  induction xs as [|x xs IH]; intros Hbody acc out; simpl.
  - exists out. now rewrite app_nil_r.
  - destruct (Hbody acc x out (or_introl eq_refl)) as [out1 E].
    rewrite (bind_ok _ _ _ _ _ E).
    destruct (IH (fun a y o Hy => Hbody a y o (or_intror Hy)) (acc ++ f x) out1)
      as [out2 E2].
    exists out2. rewrite E2, <- app_assoc. reflexivity.
Qed.

Lemma fallback_value (shapely : Shapely) (h_img w_img : Z) out :
  value (fallback shapely h_img w_img out)
  = Ok (if is_valid shapely (fallback_rectangle h_img w_img)
        then [fallback_rectangle h_img w_img] else []).
Proof.
  unfold fallback, fallback_rectangle. rewrite bind_print, bind_call.
  cbn [fallback_points map Polygon].
  destruct (is_valid shapely _); rewrite bind_print; reflexivity.
Qed.

(** The value of the extraction after a completed preprocessing: the
    polygons the contours contribute, in order, or the fallback rectangle
    when they contribute none. *)
Lemma extract_value {Img : Type} (cv2 : Cv2 Img) (shapely : Shapely)
    (pathlib : Pathlib) image_path min_area out image contours :
  preprocessed cv2 image_path image contours ->
  areas_known cv2 contours ->
  value (extract_polygons_from_image cv2 shapely pathlib image_path min_area out)
  = match flat_map (contributed cv2 shapely min_area) contours with
    | [] =>
        let fallback_poly :=
          fallback_rectangle (fst (shape cv2 image)) (snd (shape cv2 image)) in
        Ok (if is_valid shapely fallback_poly then [fallback_poly] else [])
    | wall_polygons => Ok wall_polygons
    end.
Proof.
  intros (gray & thresh & cleaned & Hread & Hgray & Hthresh & Hclean & Hcontours) Hareas.
  unfold extract_polygons_from_image. rewrite bind_print.
  unfold try_except, extract_try_body.
  rewrite bind_call, Hread.
  destruct (shape cv2 image) as [h_img w_img]. cbn [fst snd].
  rewrite bind_call, Hgray, bind_call, Hthresh, bind_call, Hclean.
  match goal with
  | |- context [bind (try_except ?b ?h) ?k ?o] =>
      destruct (debug_write_is_caught cv2
                  (path_join pathlib (path_parent pathlib image_path)
                     (String.append (path_stem pathlib image_path) "_cleaned.png"))
                  cleaned o) as [outw Hw];
      rewrite (bind_ok _ k _ _ _ Hw)
  end.
  rewrite bind_call, Hcontours, bind_print.
  assert (Hbody : forall acc c o', In c contours ->
            exists out',
              process_contour cv2 shapely min_area acc c o'
              = (Ok (acc ++ contributed cv2 shapely min_area c), out')).
  { intros acc c o' Hc. destruct (Hareas c Hc) as [area Harea].
    eapply process_contour_run. exact Harea. }
  match goal with
  | |- context [bind (for_each contours [] ?body) ?k ?o] =>
      destruct (for_each_collects_in body (contributed cv2 shapely min_area) contours
                  Hbody [] o) as [out2 Hloop];
      rewrite (bind_ok _ k _ _ _ Hloop)
  end.
  cbn [app]. rewrite bind_print.
  destruct (flat_map (contributed cv2 shapely min_area) contours) as [|g rest].
  - match goal with
    | |- context [fallback shapely h_img w_img ?o] =>
        pose proof (fallback_value shapely h_img w_img o) as Hfb;
        destruct (fallback shapely h_img w_img o) as [[r|e] out3]
    end; unfold value in *; cbn [fst] in *; [|discriminate].
    exact Hfb.
  - reflexivity.
Qed.

(** X10.  With a Shapely that holds rectangles valid, the extractor
    returns the empty list only when the image could not be read or
    something inside its [try] raised: for a readable image whose
    processing completes there is always at least one polygon. *)
Theorem empty_list_means_failure {Img : Type}
    (cv2 : Cv2 Img) (shapely : Shapely) (pathlib : Pathlib)
    (image_path : string) (min_area : Q) (out : Log) :
  rectangles_valid shapely ->
  value (extract_polygons_from_image cv2 shapely pathlib image_path min_area out)
  = Ok [] ->
  imread cv2 image_path IMREAD_COLOR = Ok None
  \/ exists e,
       value (extract_try_body cv2 shapely pathlib image_path
                (path_parent pathlib image_path) (path_stem pathlib image_path) min_area
                (out ++ ["[INFO] feature_extraction: Loading image: {image_path}"]))
       = Raise e.
Proof.
  intros Hrect H. unfold extract_polygons_from_image in H.
  rewrite bind_print in H. unfold try_except in H.
  destruct (extract_try_body _ _ _ _ _ _ _ _) as [[polygons|e] out1] eqn:E.
  2:{ right. exists e. reflexivity. }
  unfold value in H. cbn [fst] in H. inversion H; subst; clear H.
  destruct (imread cv2 image_path IMREAD_COLOR) as [[image|]|e] eqn:Hread.
  - exfalso.
    destruct (extract_try_body_inv _ _ _ _ _ _ _ _ _ _ _ Hread E)
      as (cleaned & contours & o1 & wall_polygons & o2 & _ & _ & Hend).
    destruct wall_polygons as [|g rest]; [|discriminate].
    destruct Hend as [o3 Hfb].
    pose proof (fallback_returns_rectangle shapely (fst (shape cv2 image))
                  (snd (shape cv2 image)) o3 Hrect) as Hone.
    rewrite Hfb in Hone. discriminate Hone.
  - now left.
  - unfold extract_try_body in E. rewrite bind_call, Hread in E. discriminate E.
Qed.

Lemma empty_list_means_failure_witness :
  imread (Stub.cv2 no_files [] []) "missing.png" IMREAD_COLOR = Ok None
  \/ exists e,
       value (extract_try_body (Stub.cv2 no_files [] []) Stub.shapely Stub.pathlib
                "missing.png" (path_parent Stub.pathlib "missing.png")
                (path_stem Stub.pathlib "missing.png") 150
                ([] ++ ["[INFO] feature_extraction: Loading image: {image_path}"]))
       = Raise e.
Proof.
  apply (empty_list_means_failure (Stub.cv2 no_files [] []) Stub.shapely Stub.pathlib
           "missing.png" 150 [] stub_rectangles_valid).
  reflexivity.
Defined.

Lemma Polygon_of_ring (shell : list Point) :
  (3 <= List.length shell)%nat -> Polygon shell = Ok (Poly shell).
Proof.
  destruct shell as [|a [|b [|c rest]]]; simpl; intro H; try lia; reflexivity.
Qed.

(** X11.  After a completed preprocessing, every contour whose area is
    at least [min_area], that has at least three points and whose
    polygon Shapely holds valid is returned as that polygon. *)
Theorem valid_contour_is_returned {Img : Type}
    (cv2 : Cv2 Img) (shapely : Shapely) (pathlib : Pathlib)
    (image_path : string) (min_area : Q) (out : Log)
    (image : Img) (contours : list Contour) (contour : Contour) (area : Q) :
  preprocessed cv2 image_path image contours ->
  areas_known cv2 contours ->
  In contour contours ->
  contourArea cv2 contour = Ok area ->
  (min_area <= area)%Q ->
  (3 <= List.length contour)%nat ->
  is_valid shapely (Poly (map to_point contour)) = true ->
  exists polygons,
    value (extract_polygons_from_image cv2 shapely pathlib image_path min_area out)
    = Ok polygons
    /\ In (Poly (map to_point contour)) polygons.
Proof.
  intros Hpre Hareas Hin Harea Hbig Hlen Hvalid.
  rewrite (extract_value cv2 shapely pathlib image_path min_area out image contours
             Hpre Hareas).
  assert (Hc : contributed cv2 shapely min_area contour = [Poly (map to_point contour)]).
  { unfold contributed. rewrite Harea.
    assert (Hq : Qlt_bool area min_area = false).
    { unfold Qlt_bool. now rewrite (proj2 (Qle_bool_iff _ _) Hbig). }
    rewrite Hq.
    rewrite (proj2 (Nat.ltb_ge _ _) Hlen).
    rewrite Polygon_of_ring by now rewrite length_map.
    rewrite Hvalid.
    destruct contour as [|p rest]; [simpl in Hlen; lia | reflexivity]. }
  assert (Hmem : In (Poly (map to_point contour))
                    (flat_map (contributed cv2 shapely min_area) contours)).
  { apply in_flat_map. exists contour. split; [exact Hin|]. rewrite Hc. now left. }
  destruct (flat_map (contributed cv2 shapely min_area) contours) as [|g rest].
  - destruct Hmem.
  - eexists. split; [reflexivity | exact Hmem].
Qed.

Lemma valid_contour_is_returned_witness :
  exists polygons,
    value (extract_polygons_from_image (Stub.cv2 only_plan [square_contour] [])
             Stub.shapely Stub.pathlib "plan.png" 150 [])
    = Ok polygons
    /\ In (Poly (map to_point square_contour)) polygons.
Proof.
  apply (valid_contour_is_returned (Stub.cv2 only_plan [square_contour] [])
           Stub.shapely Stub.pathlib "plan.png" 150 [] (40, 60) [square_contour]
           square_contour (800 # 2)).
  - exists (40, 60), (40, 60), (40, 60). repeat split.
  - intros c _. eexists. reflexivity.
  - now left.
  - reflexivity.
  - unfold Qle. simpl. lia.
  - simpl. lia.
  - reflexivity.
Defined.

(** X12.  After a completed preprocessing in which no contour
    contributes a polygon, for an image at least two pixels high and
    wide the extractor returns exactly one rectangle, inset by
    [s = min(10, h // 2 - 1, w // 2 - 1)] from each border, with
    [0 <= s <= 10]; it lies within the image, and from 22 pixels on in
    both directions the inset is the full 10. *)
Theorem fallback_rectangle_in_bounds {Img : Type}
    (cv2 : Cv2 Img) (shapely : Shapely) (pathlib : Pathlib)
    (image_path : string) (min_area : Q) (out : Log)
    (image : Img) (contours : list Contour) (h_img w_img : Z) :
  rectangles_valid shapely ->
  preprocessed cv2 image_path image contours ->
  areas_known cv2 contours ->
  flat_map (contributed cv2 shapely min_area) contours = [] ->
  shape cv2 image = (h_img, w_img) ->
  2 <= h_img -> 2 <= w_img ->
  let s := safe_inset_of 10 h_img w_img in
  value (extract_polygons_from_image cv2 shapely pathlib image_path min_area out)
  = Ok [rectangle s s (w_img - s) (h_img - s)]
  /\ 0 <= s <= 10
  /\ within_image h_img w_img (rect_points s s (w_img - s) (h_img - s)) = true
  /\ (22 <= h_img -> 22 <= w_img -> s = 10).
Proof.
  intros Hrect Hpre Hareas Hnone Hshape Hh Hw s.
  rewrite (extract_value cv2 shapely pathlib image_path min_area out image contours
             Hpre Hareas), Hnone, Hshape.
  cbn [fst snd]. cbv zeta.
  assert (Hs : s + 2 <= w_img - s /\ s + 2 <= h_img - s /\ 0 <= s <= 10).
  { unfold s, safe_inset_of. Z.div_mod_to_equations. lia. }
  split; [|split; [lia|split]].
  - change (fallback_rectangle h_img w_img) with (rectangle s s (w_img - s) (h_img - s)).
    rewrite (Hrect s s (w_img - s) (h_img - s)) by lia. reflexivity.
  - unfold within_image, rect_points. cbn [forallb fst snd].
    rewrite !andb_true_iff, !Z.leb_le. lia.
  - intros H22h H22w. unfold s, safe_inset_of. Z.div_mod_to_equations. lia.
Qed.

Lemma fallback_rectangle_in_bounds_witness :
  value (extract_polygons_from_image (Stub.cv2 only_plan [] []) Stub.shapely
           Stub.pathlib "plan.png" 150 [])
  = Ok [rectangle 10 10 50 30].
Proof.
  apply (fallback_rectangle_in_bounds (Stub.cv2 only_plan [] []) Stub.shapely
           Stub.pathlib "plan.png" 150 [] (40, 60) [] 40 60 stub_rectangles_valid).
  - exists (40, 60), (40, 60), (40, 60). repeat split.
  - intros c [].
  - reflexivity.
  - reflexivity.
  - lia.
  - lia.
Defined.

(** X13.  After a completed preprocessing, when every contour is below
    the area threshold or has fewer than three points, the extractor
    returns exactly the fallback rectangle of the image. *)
Theorem small_contours_give_fallback {Img : Type}
    (cv2 : Cv2 Img) (shapely : Shapely) (pathlib : Pathlib)
    (image_path : string) (min_area : Q) (out : Log)
    (image : Img) (contours : list Contour) :
  rectangles_valid shapely ->
  preprocessed cv2 image_path image contours ->
  (forall contour, In contour contours ->
     exists area,
       contourArea cv2 contour = Ok area
       /\ ((area < min_area)%Q \/ (List.length contour < 3)%nat)) ->
  value (extract_polygons_from_image cv2 shapely pathlib image_path min_area out)
  = Ok [fallback_rectangle (fst (shape cv2 image)) (snd (shape cv2 image))].
Proof.
  intros Hrect Hpre Hsmall.
  assert (Hareas : areas_known cv2 contours).
  { intros c Hc. destruct (Hsmall c Hc) as (a & Ha & _). now exists a. }
  assert (Hnone : flat_map (contributed cv2 shapely min_area) contours = []).
  { clear Hpre Hareas. induction contours as [|c cs IH]; [reflexivity|].
    simpl. rewrite IH by (intros c' Hc'; apply Hsmall; now right).
    rewrite app_nil_r. destruct (Hsmall c (or_introl eq_refl)) as (a & Ha & Hor).
    unfold contributed. rewrite Ha. destruct Hor as [Hlt | Hlen].
    - now rewrite (proj2 (Qlt_bool_iff _ _) Hlt).
    - destruct (Qlt_bool a min_area); [reflexivity|].
      now rewrite (proj2 (Nat.ltb_lt _ _) Hlen). }
  rewrite (extract_value cv2 shapely pathlib image_path min_area out image contours
             Hpre Hareas), Hnone.
  cbv zeta. destruct (shape cv2 image) as [h_img w_img]. cbn [fst snd].
  pose proof (safe_inset_positive_extent h_img w_img) as (_ & Hw & Hh). cbv zeta in Hw, Hh.
  change (fallback_rectangle h_img w_img)
    with (rectangle (safe_inset_of 10 h_img w_img) (safe_inset_of 10 h_img w_img)
            (w_img - safe_inset_of 10 h_img w_img) (h_img - safe_inset_of 10 h_img w_img)).
  rewrite Hrect by lia. reflexivity.
Qed.

(** A speck: a triangle of area 2. *)
Lemma small_contours_give_fallback_witness :
  value (extract_polygons_from_image
           (Stub.cv2 only_plan [ [ (1, 1); (3, 1); (1, 3) ] ] []) Stub.shapely
           Stub.pathlib "plan.png" 150 [])
  = Ok [fallback_rectangle 40 60].
Proof.
  apply (small_contours_give_fallback
           (Stub.cv2 only_plan [ [ (1, 1); (3, 1); (1, 3) ] ] []) Stub.shapely
           Stub.pathlib "plan.png" 150 [] (40, 60) [ [ (1, 1); (3, 1); (1, 3) ] ]
           stub_rectangles_valid).
  - exists (40, 60), (40, 60), (40, 60). repeat split.
  - intros c [<- | []]. eexists. split; [reflexivity|]. left. reflexivity.
Defined.

Lemma same_value_oblivious {A} (m : M A) : oblivious m -> same_value m m.
Proof. intros H o1 o2. apply H. Qed.

Lemma same_value_bind {A B} (m1 m2 : M A) (k1 k2 : A -> M B) :
  same_value m1 m2 -> (forall a, same_value (k1 a) (k2 a)) ->
  same_value (bind m1 k1) (bind m2 k2).
Proof.
  intros Hm Hk o1 o2. specialize (Hm o1 o2). unfold value, bind in *.
  destruct (m1 o1) as [[a1|e1] o1'], (m2 o2) as [[a2|e2] o2'];
    cbn [fst] in *; try discriminate.
  - inversion Hm; subst. apply Hk.
  - now inversion Hm.
Qed.

Lemma same_value_try_except {A} (body1 body2 : M A) (handler : exn -> M A) :
  same_value body1 body2 -> (forall e, oblivious (handler e)) ->
  same_value (try_except body1 handler) (try_except body2 handler).
Proof.
  intros Hb Hh o1 o2. specialize (Hb o1 o2). unfold value, try_except in *.
  destruct (body1 o1) as [[a1|e1] o1'], (body2 o2) as [[a2|e2] o2'];
    cbn [fst] in *; try discriminate.
  - exact Hb.
  - inversion Hb; subst. apply Hh.
Qed.

(** X14.  The debug image is of no consequence: with any other
    [imwrite], failing or not, the extractor returns the same list. *)
Theorem debug_write_is_irrelevant {Img : Type}
    (cv2 : Cv2 Img) (shapely : Shapely) (pathlib : Pathlib)
    (image_path : string) (min_area : Q) (out : Log)
    (write : string -> Img -> Result bool) :
  value (extract_polygons_from_image (with_imwrite cv2 write) shapely pathlib
           image_path min_area out)
  = value (extract_polygons_from_image cv2 shapely pathlib image_path min_area out).
Proof.
  unfold extract_polygons_from_image. rewrite !bind_print.
  apply same_value_try_except; [|intro; repeat oblivious_step].
  unfold extract_try_body.
  change (imread (with_imwrite cv2 write)) with (imread cv2).
  change (shape (with_imwrite cv2 write)) with (shape cv2).
  change (cvtColor (with_imwrite cv2 write)) with (cvtColor cv2).
  change (adaptiveThreshold (with_imwrite cv2 write)) with (adaptiveThreshold cv2).
  change (morphologyEx (with_imwrite cv2 write)) with (morphologyEx cv2).
  change (findContours (with_imwrite cv2 write)) with (findContours cv2).
  change (process_contour (with_imwrite cv2 write)) with (process_contour cv2).
  change (imwrite (with_imwrite cv2 write)) with write.
  apply same_value_bind; [apply same_value_oblivious, oblivious_call|].
  intros [image|]; [|apply same_value_oblivious; repeat oblivious_step].
  destruct (shape cv2 image) as [h_img w_img].
  apply same_value_bind; [apply same_value_oblivious, oblivious_call | intro gray].
  apply same_value_bind; [apply same_value_oblivious, oblivious_call | intro thresh].
  apply same_value_bind; [apply same_value_oblivious, oblivious_call | intro cleaned].
  apply same_value_bind.
  - intros o1 o2.
    match goal with
    | |- value (try_except ?b1 ?h o1) = value (try_except ?b2 ?h o2) =>
        destruct (debug_write_is_caught (with_imwrite cv2 write)
                    (path_join pathlib (path_parent pathlib image_path)
                       (String.append (path_stem pathlib image_path) "_cleaned.png"))
                    cleaned o1) as [o1' H1];
        destruct (debug_write_is_caught cv2
                    (path_join pathlib (path_parent pathlib image_path)
                       (String.append (path_stem pathlib image_path) "_cleaned.png"))
                    cleaned o2) as [o2' H2]
    end.
    change (imwrite (with_imwrite cv2 write)) with write in H1.
    rewrite H1, H2. reflexivity.
  - intros []. apply same_value_oblivious.
    repeat (oblivious_step
            || apply process_contour_oblivious || apply fallback_oblivious).
Qed.

(** *** More on find_features *)

(** The matches of a completed template search: the rectangles at the
    passing entries of the score array, row by row. *)
Lemma find_features_matches {Img : Type}
    (cv2 : Cv2 Img) (shapely : Shapely)
    image_path template_path threshold out img_gray template w h res :
  rectangles_valid shapely ->
  imread cv2 image_path IMREAD_GRAYSCALE = Ok (Some img_gray) ->
  imread cv2 template_path IMREAD_GRAYSCALE = Ok (Some template) ->
  shape cv2 template = (h, w) -> 0 < w -> 0 < h ->
  matchTemplate cv2 img_gray template TM_CCOEFF_NORMED = Ok res ->
  value (find_features cv2 shapely image_path template_path threshold out)
  = Ok (map (match_rectangle w h)
          (map (fun p => (snd p, fst p)) (where_rows res threshold 0))).
Proof.
  intros Hrect Himg Htpl Hshape Hw Hh Hres.
  unfold find_features. rewrite bind_print. unfold try_except.
  rewrite bind_call, Himg, bind_call, Htpl, Hshape, bind_call, Hres.
  unfold np_where_ge. rewrite zip_reversed_where.
  rewrite (bind_ok _ _ _ _ _ (match_loop_keeps_all shapely w h _ [] _ Hrect Hw Hh)).
  rewrite bind_print. reflexivity.
Qed.

(** X15.  Raising the threshold can only remove matches: every rectangle
    returned at the higher threshold is returned at the lower one. *)
Theorem higher_threshold_fewer_matches {Img : Type}
    (cv2 : Cv2 Img) (shapely : Shapely)
    (image_path template_path : string) (low high : Q) (out : Log)
    (img_gray template : Img) (w h : Z) (res : list (list Q))
    (at_low at_high : list Geometry) :
  rectangles_valid shapely ->
  imread cv2 image_path IMREAD_GRAYSCALE = Ok (Some img_gray) ->
  imread cv2 template_path IMREAD_GRAYSCALE = Ok (Some template) ->
  shape cv2 template = (h, w) -> 0 < w -> 0 < h ->
  matchTemplate cv2 img_gray template TM_CCOEFF_NORMED = Ok res ->
  (low <= high)%Q ->
  value (find_features cv2 shapely image_path template_path low out) = Ok at_low ->
  value (find_features cv2 shapely image_path template_path high out) = Ok at_high ->
  incl at_high at_low.
Proof.
  intros Hrect Himg Htpl Hshape Hw Hh Hres Hle Hlow Hhigh.
  rewrite (find_features_matches cv2 shapely image_path template_path low out
             img_gray template w h res Hrect Himg Htpl Hshape Hw Hh Hres) in Hlow.
  rewrite (find_features_matches cv2 shapely image_path template_path high out
             img_gray template w h res Hrect Himg Htpl Hshape Hw Hh Hres) in Hhigh.
  inversion Hlow; subst; clear Hlow. inversion Hhigh; subst; clear Hhigh.
  intros g Hg. apply in_map_iff in Hg. destruct Hg as (pt & <- & Hpt).
  apply in_map. apply in_map_iff in Hpt. destruct Hpt as ([r c] & <- & Hrc).
  apply in_map_iff. exists (r, c). split; [reflexivity|].
  apply where_rows_spec in Hrc. destruct Hrc as (Hr & s & Hs & Hpass).
  apply where_rows_spec. split; [exact Hr|]. exists s. split; [exact Hs|].
  now apply Qle_trans with high.
Qed.

Lemma higher_threshold_fewer_matches_witness :
  incl [rectangle 0 0 2 3] [rectangle 0 0 2 3; rectangle 1 0 3 3].
Proof.
  apply (higher_threshold_fewer_matches
           (Stub.cv2 plan_and_templates [] two_neighbours) Stub.shapely
           "plan.png" "door_template.png" (7 # 10) (85 # 100) [] (40, 60) (3, 2) 2 3
           two_neighbours);
    try reflexivity; try lia.
  - exact stub_rectangles_valid.
  - unfold Qle. simpl. lia.
Defined.

Lemma score_at_bounds (res : list (list Q)) (r c : nat) (s : Q) (n m : Z) :
  Z.of_nat (List.length res) = n ->
  Forall (fun row => Z.of_nat (List.length row) = m) res ->
  score_at res r c = Some s ->
  Z.of_nat r < n /\ Z.of_nat c < m.
Proof.
  intros Hn Hrows Hs. unfold score_at in Hs.
  destruct (nth_error res r) as [row|] eqn:Hrow; [|discriminate].
  assert (Hr : (r < List.length res)%nat) by (apply nth_error_Some; congruence).
  assert (Hc : (c < List.length row)%nat) by (apply nth_error_Some; congruence).
  rewrite Forall_forall in Hrows.
  pose proof (Hrows row (nth_error_In _ _ Hrow)) as Hm.
  lia.
Qed.

(** X16.  With OpenCV's size of the score array (one entry per position
    of the template inside the image), every rectangle [find_features]
    returns is anchored inside the image and lies within it. *)
Theorem matches_lie_within_image {Img : Type}
    (cv2 : Cv2 Img) (shapely : Shapely)
    (image_path template_path : string) (threshold : Q) (out : Log)
    (img_gray template : Img) (rows cols w h : Z) (res : list (list Q))
    (polygons : list Geometry) :
  rectangles_valid shapely ->
  imread cv2 image_path IMREAD_GRAYSCALE = Ok (Some img_gray) ->
  imread cv2 template_path IMREAD_GRAYSCALE = Ok (Some template) ->
  shape cv2 img_gray = (rows, cols) ->
  shape cv2 template = (h, w) -> 0 < w -> 0 < h ->
  matchTemplate cv2 img_gray template TM_CCOEFF_NORMED = Ok res ->
  match_array_shape rows cols h w res ->
  value (find_features cv2 shapely image_path template_path threshold out)
  = Ok polygons ->
  forall g, In g polygons ->
    exists x y,
      g = rectangle x y (x + w) (y + h)
      /\ 0 <= x /\ x + w <= cols /\ 0 <= y /\ y + h <= rows
      /\ within_image rows cols (rect_points x y (x + w) (y + h)) = true.
Proof.
  intros Hrect Himg Htpl Hishape Hshape Hw Hh Hres [Hn Hm] Hrun g Hg.
  rewrite (find_features_matches cv2 shapely image_path template_path threshold out
             img_gray template w h res Hrect Himg Htpl Hshape Hw Hh Hres) in Hrun.
  inversion Hrun; subst; clear Hrun.
  apply in_map_iff in Hg. destruct Hg as (pt & <- & Hpt).
  apply in_map_iff in Hpt. destruct Hpt as ([r c] & <- & Hrc).
  apply where_rows_spec in Hrc. destruct Hrc as (_ & s & Hs & _).
  rewrite Nat.sub_0_r in Hs.
  destruct (score_at_bounds res r c s _ _ Hn Hm Hs) as [Hr Hc].
  exists (Z.of_nat c), (Z.of_nat r). cbn [fst snd].
  split; [reflexivity|].
  assert (Hb : 0 <= Z.of_nat c /\ Z.of_nat c + w <= cols
               /\ 0 <= Z.of_nat r /\ Z.of_nat r + h <= rows) by lia.
  repeat (split; [lia|]).
  unfold within_image, rect_points. cbn [forallb fst snd].
  rewrite !andb_true_iff, !Z.leb_le. lia.
Qed.

Lemma matches_lie_within_image_witness :
  Forall (fun g =>
            exists x y,
              g = rectangle x y (x + 2) (y + 3)
              /\ 0 <= x /\ x + 2 <= 5 /\ 0 <= y /\ y + 3 <= 4
              /\ within_image 4 5 (rect_points x y (x + 2) (y + 3)) = true)
         [rectangle 0 0 2 3; rectangle 3 0 5 3].
Proof.
  apply Forall_forall.
  apply (matches_lie_within_image (Stub.cv2 small_plan [] small_scores) Stub.shapely
           "plan.png" "door_template.png" (7 # 10) [] (4, 5) (3, 2) 4 5 2 3
           small_scores);
    try reflexivity; try lia.
  - exact stub_rectangles_valid.
  - split; [reflexivity | repeat constructor].
Defined.




(* ================================================================== *)
(** * Properties of the /register route                               *)
(* ================================================================== *)

Lemma find_email_taken (table : list User) (address : string) (row : User) :
  In row table -> Database.email row = address ->
  exists found,
    find (fun u => String.eqb (Database.email u) address) table = Some found.
Proof.
  intros Hin Hrow.
  destruct (find (fun u => String.eqb (Database.email u) address) table) as [found|] eqn:E.
  - now exists found.
  - pose proof (find_none _ _ E row Hin) as Hno. cbn in Hno.
    rewrite Hrow, String.eqb_refl in Hno. discriminate Hno.
Qed.

Lemma find_email_free (table : list User) (address : string) :
  ~ In address (emails table) <->
  find (fun u => String.eqb (Database.email u) address) table = None.
Proof.
  split.
  - intro Hfree.
    destruct (find (fun u => String.eqb (Database.email u) address) table) as [found|] eqn:E;
      [|reflexivity].
    apply find_some in E. destruct E as [Hin Heq]. apply String.eqb_eq in Heq.
    exfalso. apply Hfree. unfold emails. rewrite <- Heq. now apply in_map.
  - intros Hnone Hin. unfold emails in Hin. apply in_map_iff in Hin.
    destruct Hin as (row & Hrow & Hin).
    pose proof (find_none _ _ Hnone row Hin) as Hno. cbn in Hno.
    rewrite Hrow, String.eqb_refl in Hno. discriminate Hno.
Qed.

(** A request for an address that is in the table. *)
Lemma register_taken (engine : Engine) (security : Security)
    (table : list User) (user : UserCreate) (out : Log) :
  In (user_email user) (emails table) ->
  register_request engine security table user out
  = (Raise (HTTPException 400 "Email already registered"), table,
     out ++ ["Attempting to register user: {user.email}"]
         ++ ["Error: User with this email already exists."]).
Proof.
  intro Hin. unfold emails in Hin. apply in_map_iff in Hin.
  destruct Hin as (row & Hrow & Hin).
  destruct (find_email_taken table (user_email user) row Hin Hrow) as [found Hfound].
  unfold register_request, get_db, register_user, db_bind, db_print,
    query_first_by_email, db_raise.
  cbn [users]. rewrite Hfound. now rewrite <- app_assoc.
Qed.

(** X17.  A registration for an e-mail address that is already in the
    table is refused with [HTTPException(400, "Email already
    registered")]; the table is left as it is, and neither the hasher nor
    the engine is asked. *)
Theorem register_duplicate_email (engine : Engine) (security : Security)
    (table : list User) (user : UserCreate) (out : Log) :
  In (user_email user) (emails table) ->
  forall engine' security',
    register_request engine' security' table user out
    = (Raise (HTTPException 400 "Email already registered"), table,
       out ++ ["Attempting to register user: {user.email}"]
           ++ ["Error: User with this email already exists."])
    /\ register_request engine' security' table user out
       = register_request engine security table user out.
Proof.
  intros Hin engine' security'.
  rewrite (register_taken engine' security' table user out Hin).
  rewrite (register_taken engine security table user out Hin).
  split; reflexivity.
Qed.

Lemma register_duplicate_email_witness :
  fst (fst (register_request locked_engine prefix_hasher [alice_row] alice []))
  = Raise (HTTPException 400 "Email already registered").
Proof.
  destruct (register_duplicate_email counting_engine prefix_hasher [alice_row] alice []
              ltac:(left; reflexivity) locked_engine prefix_hasher) as [H _].
  rewrite H. reflexivity.
Defined.

(** X18.  A registration for a new address, when the hasher, the INSERT
    and the refresh succeed, appends one row to the table, with the key
    the engine gave, the address, and the hash of the password, and
    answers with the success content carrying that key and address. *)
Theorem register_new_email (engine : Engine) (security : Security)
    (table : list User) (user : UserCreate) (out : Log)
    (hashed : string) (key : Z) :
  ~ In (user_email user) (emails table) ->
  get_password_hash security (password user) = Ok hashed ->
  insert engine table (user_email user) hashed = Ok key ->
  refresh engine (table ++ [mkUser key (user_email user) hashed]) key = Ok tt ->
  register_request engine security table user out
  = (Ok (Registered.mkContent true "User created successfully!" (Some key)
           (user_email user)),
     table ++ [mkUser key (user_email user) hashed],
     out ++ ["Attempting to register user: {user.email}"]
         ++ ["Successfully registered user with ID: {new_db_user.id}"]).
Proof.
  intros Hfree Hhash Hinsert Hrefresh. apply find_email_free in Hfree.
  unfold register_request, get_db, register_user, db_bind, db_print,
    query_first_by_email, db_call, db_try, db_add, db_commit, db_refresh, db_ret.
  cbn [users pending]. rewrite Hfree, Hhash. cbn [users pending].
  rewrite Hinsert. cbn [users pending]. rewrite Hrefresh.
  cbn [users]. now rewrite <- app_assoc.
Qed.

Lemma register_new_email_witness :
  snd (fst (register_request counting_engine prefix_hasher [] alice [])) = [alice_row].
Proof.
  rewrite (register_new_email counting_engine prefix_hasher [] alice []
             "hash:secret" 1); try reflexivity.
  intros [].
Defined.

(** X19.  When the INSERT of the commit raises, the route rolls back and
    raises [HTTPException(500, "Error creating user: " + message)]; the
    table is left as it is. *)
Theorem register_commit_failure (engine : Engine) (security : Security)
    (table : list User) (user : UserCreate) (out : Log)
    (hashed : string) (e : exn) :
  ~ In (user_email user) (emails table) ->
  get_password_hash security (password user) = Ok hashed ->
  insert engine table (user_email user) hashed = Raise e ->
  register_request engine security table user out
  = (Raise (HTTPException 500 (String.append "Error creating user: " (exn_msg e))),
     table,
     out ++ ["Attempting to register user: {user.email}"]
         ++ ["Error creating user: {e}"]).
Proof.
  intros Hfree Hhash Hinsert. apply find_email_free in Hfree.
  unfold register_request, get_db, register_user, db_bind, db_print,
    query_first_by_email, db_call, db_try, db_add, db_commit, db_refresh, db_ret,
    db_rollback, db_raise.
  cbn [users pending]. rewrite Hfree, Hhash. cbn [users pending].
  rewrite Hinsert. cbn [users]. now rewrite <- app_assoc.
Qed.

Lemma register_commit_failure_witness :
  register_request locked_engine prefix_hasher [] alice []
  = (Raise (HTTPException 500 "Error creating user: database is locked"), [],
     ["Attempting to register user: {user.email}"; "Error creating user: {e}"]).
Proof.
  rewrite (register_commit_failure locked_engine prefix_hasher [] alice []
             "hash:secret" (mkExn "OperationalError" "database is locked"));
    try reflexivity.
  intros [].
Defined.

(** What a request does to the table: nothing, or one new row with the
    requested address, which was free. *)
Lemma register_table_after (engine : Engine) (security : Security)
    (table : list User) (user : UserCreate) (out : Log) r table' out' :
  register_request engine security table user out = (r, table', out') ->
  table' = table
  \/ (~ In (user_email user) (emails table)
      /\ exists key hashed,
           get_password_hash security (password user) = Ok hashed
           /\ table' = table ++ [mkUser key (user_email user) hashed]).
Proof.
  unfold register_request, get_db, register_user, db_bind, db_print,
    query_first_by_email, db_call, db_try, db_add, db_commit, db_refresh, db_ret,
    db_rollback, db_raise.
  cbn [users pending].
  destruct (find _ table) as [found|] eqn:Hfind.
  - intro H. inversion H. now left.
  - apply find_email_free in Hfind.
    destruct (get_password_hash security (password user)) as [hashed|e] eqn:Hhash.
    + cbn [users pending].
      destruct (insert engine table (user_email user) hashed) as [key|e].
      * cbn [users pending].
        destruct (refresh engine _ key) as [[]|e]; intro H; inversion H;
          right; (split; [exact Hfind|]); exists key, hashed; split; reflexivity.
      * intro H. inversion H. now left.
    + intro H. inversion H. now left.
Qed.

(** X20.  E-mail addresses stay unique: whatever the hasher and the
    engine do and however the request ends, a table without a repeated
    address is left without one, and the request adds at most one row,
    for the requested address. *)
Theorem register_keeps_emails_unique (engine : Engine) (security : Security)
    (table : list User) (user : UserCreate) (out : Log)
    (r : Result Registered.Content) (table' : list User) (out' : Log) :
  NoDup (emails table) ->
  register_request engine security table user out = (r, table', out') ->
  NoDup (emails table')
  /\ (table' = table
      \/ exists row, table' = table ++ [row] /\ Database.email row = user_email user).
Proof.
  intros Hunique Hrun.
  destruct (register_table_after engine security table user out r table' out' Hrun)
    as [-> | (Hfree & key & hashed & _ & ->)].
  - split; [exact Hunique | now left].
  - split.
    + unfold emails. rewrite map_app. cbn [map Database.email].
      apply NoDup_app; [exact Hunique | repeat constructor; intros [] |].
      intros a Ha [<- | []]. exact (Hfree Ha).
    + right. eexists. split; reflexivity.
Qed.

Lemma register_keeps_emails_unique_witness :
  NoDup (emails (snd (fst (register_request counting_engine prefix_hasher
                             [alice_row] (mkUserCreate "bob@example.org" "pw") [])))).
Proof.
  refine (proj1 (register_keeps_emails_unique counting_engine prefix_hasher
                   [alice_row] (mkUserCreate "bob@example.org" "pw") [] _ _ _ _ _)).
  - repeat constructor. intros [].
  - reflexivity.
Defined.

(** X21.  Once a registration has succeeded, a second registration for
    the same address, with any password, is refused with
    [HTTPException(400, "Email already registered")] and changes
    nothing. *)
Theorem register_twice_is_refused (engine : Engine) (security : Security)
    (table : list User) (user again : UserCreate) (out out2 : Log)
    (content : Registered.Content) (table' : list User) (out' : Log) :
  register_request engine security table user out = (Ok content, table', out') ->
  user_email again = user_email user ->
  register_request engine security table' again out2
  = (Raise (HTTPException 400 "Email already registered"), table',
     out2 ++ ["Attempting to register user: {user.email}"]
          ++ ["Error: User with this email already exists."]).
Proof.
  intros Hfirst Hsame. apply register_taken. rewrite Hsame.
  destruct (register_table_after engine security table user out _ _ _ Hfirst)
    as [-> | (_ & key & hashed & _ & ->)].
  - destruct (in_dec string_dec (user_email user) (emails table)) as [Hin | Hfree];
      [exact Hin|].
    exfalso. apply find_email_free in Hfree. revert Hfirst.
    unfold register_request, get_db, register_user, db_bind, db_print,
      query_first_by_email, db_call, db_try, db_add, db_commit, db_refresh, db_ret,
      db_rollback, db_raise.
    cbn [users pending]. rewrite Hfree.
    destruct (get_password_hash security (password user)) as [hashed|e];
      [|discriminate].
    cbn [users pending].
    destruct (insert engine table (user_email user) hashed) as [key|e];
      [|discriminate].
    cbn [users pending].
    destruct (refresh engine _ key) as [[]|e]; [|discriminate].
    intro H. inversion H as [[Hc Ht Ho]].
    apply (f_equal (@List.length User)) in Ht. rewrite length_app in Ht.
    simpl in Ht. lia.
  - unfold emails. rewrite map_app. apply in_or_app. right. now left.
Qed.

Lemma register_twice_is_refused_witness :
  fst (fst (register_request counting_engine prefix_hasher [alice_row]
              (mkUserCreate "alice@example.org" "other") []))
  = Raise (HTTPException 400 "Email already registered").
Proof.
  rewrite (register_twice_is_refused counting_engine prefix_hasher [] alice
             (mkUserCreate "alice@example.org" "other") [] []
             (Registered.mkContent true "User created successfully!" (Some 1)
                "alice@example.org")
             [alice_row]
             ["Attempting to register user: {user.email}";
              "Successfully registered user with ID: {new_db_user.id}"]
             eq_refl eq_refl).
  reflexivity.
Defined.

(** X22.  A refresh that raises comes after the commit: the route
    answers [HTTPException(500, ...)], yet the new row is in the table,
    the rollback having nothing left to undo. *)
Theorem register_refresh_failure_keeps_row (engine : Engine) (security : Security)
    (table : list User) (user : UserCreate) (out : Log)
    (hashed : string) (key : Z) (e : exn) :
  ~ In (user_email user) (emails table) ->
  get_password_hash security (password user) = Ok hashed ->
  insert engine table (user_email user) hashed = Ok key ->
  refresh engine (table ++ [mkUser key (user_email user) hashed]) key = Raise e ->
  register_request engine security table user out
  = (Raise (HTTPException 500 (String.append "Error creating user: " (exn_msg e))),
     table ++ [mkUser key (user_email user) hashed],
     out ++ ["Attempting to register user: {user.email}"]
         ++ ["Error creating user: {e}"]).
Proof.
  intros Hfree Hhash Hinsert Hrefresh. apply find_email_free in Hfree.
  unfold register_request, get_db, register_user, db_bind, db_print,
    query_first_by_email, db_call, db_try, db_add, db_commit, db_refresh, db_ret,
    db_rollback, db_raise.
  cbn [users pending]. rewrite Hfree, Hhash. cbn [users pending].
  rewrite Hinsert. cbn [users pending]. rewrite Hrefresh.
  cbn [users]. now rewrite <- app_assoc.
Qed.

Lemma register_refresh_failure_keeps_row_witness :
  snd (fst (register_request stale_engine prefix_hasher [] alice [])) = [alice_row].
Proof.
  rewrite (register_refresh_failure_keeps_row stale_engine prefix_hasher [] alice []
             "hash:secret" 1
             (mkExn "InvalidRequestError" "Could not refresh instance"));
    try reflexivity.
  intros [].
Defined.
